(** * NI PXI-6733 driver: task life cycle of [artiq/devices/pxi6733/driver.py]

    A shallow embedding of the two driver classes, [DAQmxSim] and [DAQmx],
    and of the part of Python they run on: instance dictionaries,
    exceptions, positional calls, and the vendor library PyDAQmx seen as
    an oracle that answers every call from the history of earlier calls. *)

From Stdlib Require Import ZArith List String Ascii PrimFloat DecimalString Lia.
From stdpp Require Import base gmap strings.
Import ListNotations.
Local Open Scope string_scope.
Local Open Scope Z_scope.

(** ** Python values and exceptions *)

(** Handles that PyDAQmx gives to its tasks ([t.taskHandle]); only their
    identity matters to the driver. *)
Definition TaskHandle := Z.

(** The values stored in a driver instance or handed to its callback. *)
Inductive pyval :=
| PyNone
| PyStr (s : string)
| PyBytes (b : string)
| PyHandle (h : TaskHandle)
| PyModule.                       (* the imported PyDAQmx module *)

(** [a is None]. *)
Definition is_none (v : pyval) : bool :=
  match v with PyNone => true | _ => false end.

(** [a == b]: values of different types are never equal (str and bytes
    included), handles are equal when they are the same handle. *)
Definition py_eq (a b : pyval) : bool :=
  match a, b with
  | PyNone, PyNone => true
  | PyStr x, PyStr y => String.eqb x y
  | PyBytes x, PyBytes y => String.eqb x y
  | PyHandle x, PyHandle y => Z.eqb x y
  | PyModule, PyModule => true
  | _, _ => false
  end.

Inductive exn :=
| AttributeError (name : string)
| TypeError
| ValueError (msg : string)
| IOError (msg : string)
| ZeroDivisionError
| UnicodeEncodeError
| DAQError (code : Z).            (* raised by PyDAQmx on a negative status *)

Inductive result (A : Type) :=
| Return (a : A)
| Raise (e : exn).
Arguments Return {A} a.
Arguments Raise {A} e.

(** [str(n)] for an int, as [str.format] prints it. *)
Definition str_of_int (n : Z) : string :=
  NilZero.string_of_int (Z.to_int n).

(** [a % b] on ints: the sign follows the divisor, as [Z.modulo]. *)
Definition py_mod (a b : Z) : result Z :=
  if b =? 0 then Raise ZeroDivisionError else Return (a mod b).

(** [a // b] on ints: floor division, as [Z.div]. *)
Definition py_floordiv (a b : Z) : result Z :=
  if b =? 0 then Raise ZeroDivisionError else Return (a / b).

(** [min(values)] and [max(values)]: the first element is the candidate,
    a later one replaces it when it compares strictly below (above). *)
Definition py_min (values : list float) : result float :=
  match values with
  | [] => Raise (ValueError "min() arg is an empty sequence")
  | x :: xs =>
      Return (fold_left (fun best item => if PrimFloat.ltb item best then item else best) xs x)
  end.

Definition py_max (values : list float) : result float :=
  match values with
  | [] => Raise (ValueError "max() arg is an empty sequence")
  | x :: xs =>
      Return (fold_left (fun best item => if PrimFloat.ltb best item then item else best) xs x)
  end.

(** ** The vendor library *)

(** The calls the driver makes into PyDAQmx.  Arguments that the driver
    passes as constants (the empty channel name, volts, rising edge,
    finite samples, no auto start, zero timeout, grouping by channel) are
    left out. *)
Inductive call :=
| Task
| CreateAOVoltageChan (t : TaskHandle) (physicalChannel : pyval) (minVal maxVal : float)
| GetTaskNumChans (t : TaskHandle)
| CfgSampClkTiming (t : TaskHandle) (source : pyval) (rate : float) (sampsPerChan : Z)
| WriteAnalogF64 (t : TaskHandle) (numSampsPerChan : Z) (writeArray : list float)
| DAQmxRegisterDoneEvent (taskHandle : pyval)
| StartTask (t : TaskHandle)
| DAQmxClearTask (taskHandle : pyval)
| DAQmxGetDevSerialNum (device : pyval).

(** A call together with its outcome: [Some code] when PyDAQmx raised
    [DAQError code]. *)
Record event := { ev_call : call; ev_error : option Z }.

(** PyDAQmx and the board behind it: every answer is a function of the
    calls made so far. *)
Record PyDAQmx := {
  daq_error : list event -> call -> option Z;
  daq_taskHandle : list event -> TaskHandle;        (* handle of the task [Task()] creates *)
  daq_numChans : list event -> TaskHandle -> Z;     (* stored by [GetTaskNumChans] *)
  daq_sampsWritten : list event -> call -> Z;       (* stored by [WriteAnalogF64] *)
  daq_writeStatus : list event -> call -> Z         (* returned by [WriteAnalogF64] *)
}.

(** PyDAQmx's [int32] is a ctypes box: the driver passes it by reference
    and reads its [.value].  What [n // box] means for an int [n] is
    decided by the class of the box. *)
Class Int32Box := { int_floordiv_box : Z -> Z -> result Z }.

(** The class PyDAQmx really uses, [ctypes.c_int32]: ctypes boxes define
    no arithmetic, so Python raises [TypeError]. *)
Definition ctypes_int32 : Int32Box :=
  {| int_floordiv_box := fun _ _ => Raise TypeError |}.

(** A box that behaves like the int it holds. *)
Definition intlike_int32 : Int32Box :=
  {| int_floordiv_box := py_floordiv |}.

(** ** The state of a driver instance *)

(** The instance dictionary of the driver object and the history of its
    calls into PyDAQmx. *)
Record world := { attrs : gmap string pyval; trace : list event }.

Definition M (A : Type) : Type := world -> result A * world.

Definition ret {A} (a : A) : M A := fun w => (Return a, w).

Definition raise {A} (e : exn) : M A := fun w => (Raise e, w).

Definition bind {A B} (m : M A) (k : A -> M B) : M B :=
  fun w => match m w with
           | (Return a, w') => k a w'
           | (Raise e, w') => (Raise e, w')
           end.

Definition lift {A} (r : result A) : M A := fun w => (r, w).

(** [try: body  except: handler] with a bare [except]. *)
Definition try_except {A} (body : M A) (handler : exn -> M A) : M A :=
  fun w => match body w with
           | (Return a, w') => (Return a, w')
           | (Raise e, w') => handler e w'
           end.

Declare Scope py_scope.
Delimit Scope py_scope with py.
Notation "x <- m ;; k" := (bind m (fun x => k))
  (at level 100, m at next level, right associativity) : py_scope.
Notation "m ;; k" := (bind m (fun _ => k))
  (at level 100, right associativity) : py_scope.
Local Open Scope py_scope.

(** [self.name] *)
Definition getattr (name : string) : M pyval :=
  fun w => match attrs w !! name with
           | Some v => (Return v, w)
           | None => (Raise (AttributeError name), w)
           end.

(** The world after [self.name = v]. *)
Definition store (w : world) (name : string) (v : pyval) : world :=
  {| attrs := <[name := v]> (attrs w); trace := trace w |}.

(** The world after one more call into PyDAQmx. *)
Definition record (w : world) (e : event) : world :=
  {| attrs := attrs w; trace := trace w ++ [e] |}.

(** [self.name = v] *)
Definition setattr (name : string) (v : pyval) : M unit :=
  fun w => (Return tt, store w name v).

(** [self.daq.member]: the attribute [daq] must hold the module. *)
Definition the_daq (member : string) : M unit :=
  d <- getattr "daq" ;;
  match d with
  | PyModule => ret tt
  | _ => raise (AttributeError member)
  end.

Section Driver.

Context (daq : PyDAQmx) {box : Int32Box}.

(** One call into PyDAQmx: it is recorded with its outcome, and a
    negative status comes back as [DAQError]. *)
Definition perform (c : call) : M unit :=
  fun w =>
    let err := daq_error daq (trace w) c in
    let w' := record w {| ev_call := c; ev_error := err |} in
    match err with
    | Some code => (Raise (DAQError code), w')
    | None => (Return tt, w')
    end.

(** The history so far, for the values PyDAQmx hands back. *)
Definition history : M (list event) := fun w => (Return (trace w), w).

(** *** [string_to_bytes] and [DAQmx.__init__] *)

Definition is_ascii (s : string) : bool :=
  forallb (fun c => (nat_of_ascii c <? 128)%nat) (list_ascii_of_string s).

Definition string_to_bytes (s : pyval) (name : string) : result pyval :=
  match s with
  | PyStr s => if is_ascii s then Return (PyBytes s) else Raise UnicodeEncodeError
  | PyBytes b => Return (PyBytes b)
  | _ => Raise (ValueError (String.append name " must be of either str or bytes type"))
  end.

(** Lines 41 to 44 of [__init__]: what the constructor does once the
    import of line 39 has succeeded. *)
Definition DAQmx_init (channels clock : pyval) : M unit :=
  c <- lift (string_to_bytes channels "channels") ;;
  setattr "channels" c ;;
  k <- lift (string_to_bytes clock "clock") ;;
  setattr "clock" k ;;
  setattr "task" PyNone ;;
  setattr "daq" PyModule.

(** The object before [__init__] runs, on a board nobody has used. *)
Definition new_object : world := {| attrs := ∅; trace := [] |}.

(** *** [DAQmx.clear_pending_task] and [DAQmx.close] *)

Definition clear_pending_task : M unit :=
  task <- getattr "task" ;;
  if is_none task then ret tt
  else (the_daq "DAQmxClearTask" ;;
        task <- getattr "task" ;;
        perform (DAQmxClearTask task) ;;
        setattr "task" PyNone).

Definition close : M unit := clear_pending_task.

(** *** [DAQmx.done_callback_py] *)

Definition done_callback_py (taskhandle : pyval) (status : Z) (callback_data : pyval) : M unit :=
  task <- getattr "task" ;;
  if py_eq taskhandle task then clear_pending_task else ret tt.

(** *** [DAQmx.ping] *)

(** The body of the [try]: the buffer for the serial number is
    allocated, then [self.daq], [self.device] and the call are evaluated
    in that order. *)
Definition ping_query : M unit :=
  the_daq "DAQmxGetDevSerialNum" ;;
  device <- getattr "device" ;;
  perform (DAQmxGetDevSerialNum device).

Definition ping : M bool :=
  try_except (ping_query ;; ret true) (fun _ => ret false).

(** *** [DAQmx.load_sample_values] *)

Definition InvalidBufferSize (channel_number : Z) : exn :=
  ValueError (String.append
    "The size of the values array must be a multiple of the number of channels ("
    (String.append (str_of_int channel_number) ")")).

Definition IncompleteWrite (num_samps_written : Z) : exn :=
  IOError (String.append "Error: only "
    (String.append (str_of_int num_samps_written) " sample values were written")).

Definition WriteFailed : exn :=
  IOError "Error while writing samples to the channel buffer".

(** Lines 87 to 120: everything after the initial clearing. *)
Definition arm_new_task (sampling_freq : float) (values : list float) : M unit :=
  the_daq "Task" ;;
  h <- history ;;
  perform Task ;;
  let t := daq_taskHandle daq h in
  channels <- getattr "channels" ;;
  lo <- lift (py_min values) ;;
  hi <- lift (py_max values) ;;
  the_daq "DAQmx_Val_Volts" ;;
  perform (CreateAOVoltageChan t channels lo hi) ;;
  the_daq "int32" ;;
  h <- history ;;
  perform (GetTaskNumChans t) ;;
  let channel_number := daq_numChans daq h t in
  let nb_values := Z.of_nat (length values) in
  r <- lift (py_mod nb_values channel_number) ;;
  (if r >? 0
   then (the_daq "DAQmxClearTask" ;;
         perform (DAQmxClearTask (PyHandle t)) ;;
         raise (InvalidBufferSize channel_number))
   else ret tt) ;;
  samps_per_channel <- lift (int_floordiv_box nb_values channel_number) ;;
  clock <- getattr "clock" ;;
  the_daq "DAQmx_Val_Rising" ;;
  the_daq "DAQmx_Val_FiniteSamps" ;;
  perform (CfgSampClkTiming t clock sampling_freq samps_per_channel) ;;
  the_daq "int32" ;;
  the_daq "DAQmx_Val_GroupByChannel" ;;
  h <- history ;;
  let write := WriteAnalogF64 t samps_per_channel values in
  perform write ;;
  let num_samps_written := daq_sampsWritten daq h write in
  let ret_ := daq_writeStatus daq h write in
  (if negb (num_samps_written =? nb_values)
   then raise (IncompleteWrite num_samps_written)
   else ret tt) ;;
  (if negb (ret_ =? 0) then raise WriteFailed else ret tt) ;;
  the_daq "DAQmxDoneEventCallbackPtr" ;;
  setattr "task" (PyHandle t) ;;
  the_daq "DAQmxRegisterDoneEvent" ;;
  perform (DAQmxRegisterDoneEvent (PyHandle t)) ;;
  perform (StartTask t).

Definition load_sample_values (sampling_freq : float) (values : list float) : M unit :=
  clear_pending_task ;;
  arm_new_task sampling_freq values.

End Driver.


(** ** Positional calls and the simulation stand-in *)

(** The arguments a client passes to [load_sample_values], and what the
    three public methods hand back. *)
Inductive pyarg :=
| ArgNumber (x : float)
| ArgSamples (xs : list float).

Inductive pyret :=
| RetNone
| RetBool (b : bool).

(** a positional call for a method declared with the positional parameters
    [params] after [self], none of them with a default: any other number
    of arguments is a [TypeError]. *)
Definition call_positional {A} (params : list string) (args : list pyarg)
    (body : list pyarg -> result A) : result A :=
  if Nat.eqb (length args) (length params) then body args else Raise TypeError.

(** The parameters of the public methods of [DAQmx], after [self]. *)
Definition DAQmx_params (method : string) : option (list string) :=
  if String.eqb method "load_sample_values" then Some ["sampling_freq"; "values"]
  else if String.eqb method "close" then Some []
  else if String.eqb method "ping" then Some []
  else None.

Module DAQmxSim.

Definition params (method : string) : option (list string) :=
  if String.eqb method "load_sample_values" then Some ["values"]
  else if String.eqb method "close" then Some []
  else if String.eqb method "ping" then Some []
  else None.

Definition load_sample_values (values : pyarg) : result pyret := Return RetNone.

Definition close : result pyret := Return RetNone.

Definition ping : result pyret := Return (RetBool true).

Definition body (method : string) (args : list pyarg) : result pyret :=
  if String.eqb method "load_sample_values"
  then match args with
       | [values] => load_sample_values values
       | _ => Raise TypeError
       end
  else if String.eqb method "close" then close
  else ping.

(** A call of [method] on the stand-in with the arguments [args], the way
    the server calls its target. *)
Definition invoke (method : string) (args : list pyarg) : result pyret :=
  match params method with
  | None => Raise (AttributeError method)
  | Some ps => call_positional ps args (body method)
  end.

End DAQmxSim.

(** ** Boards for concrete runs *)

(** A board with [k] channels whose writes report [written] samples and
    status [0], that numbers its tasks by the length of the history and
    refuses the calls [refuse] names. *)
Definition board (k written : Z) (refuse : call -> option Z) : PyDAQmx :=
  {| daq_error := fun _ c => refuse c;
     daq_taskHandle := fun tr => Z.of_nat (length tr);
     daq_numChans := fun _ _ => k;
     daq_sampsWritten := fun _ _ => written;
     daq_writeStatus := fun _ _ => 0 |}.

Definition accept_all (c : call) : option Z := None.

(** A driver bound to two channels, as [DAQmx("Dev1/ao0:1", "PFI5")]
    leaves it. *)
Definition fresh_driver : world :=
  snd (DAQmx_init (PyStr "Dev1/ao0:1") (PyStr "PFI5") new_object).


(** The same driver holding the task [h]. *)
Definition driver_with_task (h : TaskHandle) : world :=
  store fresh_driver "task" (PyHandle h).

(** Refuses to clear any task, accepts everything else. *)
Definition refuse_clear (c : call) : option Z :=
  match c with
  | DAQmxClearTask _ => Some (-200088)
  | _ => None
  end.

(** ** Life of a driver instance *)

(** What [DAQmx.__init__] establishes and every method relies on: the
    four attributes exist and [daq] holds the module. *)
Definition wf (w : world) : Prop :=
  attrs w !! "daq" = Some PyModule /\
  is_Some (attrs w !! "channels") /\
  is_Some (attrs w !! "clock") /\
  is_Some (attrs w !! "task").

(** The entry points: the three public methods, the internal clearing
    and the completion callback that PyDAQmx invokes. *)
Inductive op :=
| OpLoad (sampling_freq : float) (values : list float)
| OpPing
| OpClose
| OpClear
| OpDone (taskhandle : pyval) (status : Z) (callback_data : pyval).

(** The hardware tasks that are running for the driver: [h] is armed
    when its last accepted [StartTask] has no accepted [DAQmxClearTask]
    after it. *)
Definition arms (h : TaskHandle) (b : bool) (e : event) : bool :=
  match ev_error e, ev_call e with
  | None, StartTask t => if t =? h then true else b
  | None, DAQmxClearTask (PyHandle t) => if t =? h then false else b
  | _, _ => b
  end.

Definition armed (tr : list event) (h : TaskHandle) : bool :=
  fold_left (arms h) tr false.

Section Lifecycle.

Context (daq : PyDAQmx) {box : Int32Box}.

(** The world an entry point leaves, whether it returns or raises. *)
Definition run (o : op) (w : world) : world :=
  match o with
  | OpLoad sampling_freq values => snd (load_sample_values daq sampling_freq values w)
  | OpPing => snd (ping daq w)
  | OpClose => snd (close daq w)
  | OpClear => snd (clear_pending_task daq w)
  | OpDone taskhandle status callback_data =>
      snd (done_callback_py daq taskhandle status callback_data w)
  end.

(** The worlds a driver can be in: constructed on an unused board, then
    any sequence of entry points. *)
Inductive reachable : world -> Prop :=
| reachable_init channels clock w :
    DAQmx_init channels clock new_object = (Return tt, w) -> reachable w
| reachable_run o w :
    reachable w -> reachable (run o w).

End Lifecycle.

(** [m] keeps [P]: whatever [m] does, and however it ends, a world in
    [P] stays in [P]. *)
Definition keeps {A} (P : world -> Prop) (m : M A) : Prop :=
  forall w, P w -> P (snd (m w)).

(** What holds of every driver in use: it is well formed and has no
    attribute [device]. *)
Definition no_device (w : world) : Prop :=
  wf w /\ attrs w !! "device" = None.

(** At most one hardware task runs for the driver, and it is the one
    the driver holds. *)
Definition at_most_one (w : world) : Prop :=
  forall h, armed (trace w) h = true -> attrs w !! "task" = Some (PyHandle h).

(** No hardware task runs for the driver. *)
Definition none_armed (w : world) : Prop :=
  forall h, armed (trace w) h = false.

(** What [string_to_bytes] lets through: a str of ASCII characters or
    bytes. *)
Definition is_descriptor (v : pyval) : bool :=
  match v with
  | PyStr s => is_ascii s
  | PyBytes _ => true
  | _ => false
  end.

(** [DAQmx.__init__] from its first line: [import PyDAQmx as daq] runs
    before either argument is looked at and raises [import_error] when the
    module or the vendor library behind it cannot be loaded. *)
Definition DAQmx_construct (import_error : option exn) (channels clock : pyval) : M unit :=
  bind (match import_error with
        | Some e => raise e
        | None => ret tt
        end)
       (fun _ => DAQmx_init channels clock).

(** The calls that configure the sample clock, write samples, register
    the callback or start the task: lines 102 to 120. *)
Definition is_output_call (c : call) : bool :=
  match c with
  | CfgSampClkTiming _ _ _ _ => true
  | WriteAnalogF64 _ _ _ => true
  | DAQmxRegisterDoneEvent _ => true
  | StartTask _ => true
  | _ => false
  end.

(** * Properties *)

(** ** Stepping through a method *)

Lemma bind_Return {A B} (m : M A) (k : A -> M B) w a w' :
  m w = (Return a, w') -> bind m k w = k a w'.
Proof. intros H. unfold bind. now rewrite H. Qed.

Lemma bind_Raise {A B} (m : M A) (k : A -> M B) w e w' :
  m w = (Raise e, w') -> bind m k w = (Raise e, w').
Proof. intros H. unfold bind. now rewrite H. Qed.

Lemma bind_lift {A B} (r : result A) (k : A -> M B) w :
  bind (lift r) k w = match r with Return a => k a w | Raise e => (Raise e, w) end.
Proof. unfold bind, lift. now destruct r. Qed.

Lemma bind_raise {A B} e (k : A -> M B) w :
  bind (raise e) k w = (Raise e, w).
Proof. reflexivity. Qed.

Lemma bind_ret {A B} (a : A) (k : A -> M B) w :
  bind (ret a) k w = k a w.
Proof. reflexivity. Qed.

Lemma bind_history {B} (k : list event -> M B) w :
  bind history k w = k (trace w) w.
Proof. reflexivity. Qed.

Lemma bind_setattr {B} name v (k : unit -> M B) w :
  bind (setattr name v) k w = k tt (store w name v).
Proof. reflexivity. Qed.

Lemma bind_assoc {A B C} (m : M A) (k : A -> M B) (k' : B -> M C) w :
  bind (bind m k) k' w = bind m (fun a => bind (k a) k') w.
Proof. unfold bind. destruct (m w) as [[a | e] w']; reflexivity. Qed.

Lemma getattr_Some name v w :
  attrs w !! name = Some v -> getattr name w = (Return v, w).
Proof. intros H. unfold getattr. now rewrite H. Qed.

Lemma getattr_None name w :
  attrs w !! name = None -> getattr name w = (Raise (AttributeError name), w).
Proof. intros H. unfold getattr. now rewrite H. Qed.

Lemma the_daq_ok member w :
  attrs w !! "daq" = Some PyModule -> the_daq member w = (Return tt, w).
Proof.
  intros H. unfold the_daq.
  now rewrite (bind_Return _ _ _ _ _ (getattr_Some _ _ _ H)).
Qed.

Lemma perform_eq daq c w :
  perform daq c w =
    (match daq_error daq (trace w) c with
     | Some code => Raise (DAQError code)
     | None => Return tt
     end,
     record w {| ev_call := c; ev_error := daq_error daq (trace w) c |}).
Proof. unfold perform. now destruct (daq_error daq (trace w) c). Qed.

Lemma bind_perform {B} daq c (k : unit -> M B) w :
  bind (perform daq c) k w =
    match daq_error daq (trace w) c with
    | Some code => (Raise (DAQError code), record w {| ev_call := c; ev_error := Some code |})
    | None => k tt (record w {| ev_call := c; ev_error := None |})
    end.
Proof. unfold bind. rewrite perform_eq. now destruct (daq_error daq (trace w) c). Qed.

Lemma py_eq_refl v : py_eq v v = true.
Proof.
  destruct v; simpl; auto using String.eqb_refl, Z.eqb_refl.
Qed.

Lemma py_eq_None_r v : py_eq v PyNone = is_none v.
Proof. now destruct v. Qed.

(** ** Invariants of the instance dictionary *)

Lemma keeps_bind {A B} P (m : M A) (k : A -> M B) :
  keeps P m -> (forall a, keeps P (k a)) -> keeps P (bind m k).
Proof.
  intros Hm Hk w Hw. unfold bind.
  specialize (Hm w Hw). destruct (m w) as [[a | e] w']; simpl in *.
  - now apply Hk.
  - exact Hm.
Qed.

Lemma keeps_pure {A} P (m : M A) :
  (forall w, snd (m w) = w) -> keeps P m.
Proof. intros H w Hw. now rewrite H. Qed.

Lemma keeps_getattr P name : keeps P (getattr name).
Proof. apply keeps_pure. intros w. unfold getattr. now destruct (attrs w !! name). Qed.

Lemma keeps_the_daq P member : keeps P (the_daq member).
Proof.
  apply keeps_bind; [apply keeps_getattr |].
  intros []; now apply keeps_pure.
Qed.

Lemma keeps_perform daq P c :
  (forall w e, P w -> P (record w e)) -> keeps P (perform daq c).
Proof. intros H w Hw. rewrite perform_eq. simpl. now apply H. Qed.

Lemma keeps_setattr P name v :
  (forall w, P w -> P (store w name v)) -> keeps P (setattr name v).
Proof. intros H w Hw. now apply H. Qed.

Lemma keeps_try_except {A} P (m : M A) handler :
  keeps P m -> (forall e, keeps P (handler e)) -> keeps P (try_except m handler).
Proof.
  intros Hm Hh w Hw. unfold try_except.
  specialize (Hm w Hw). destruct (m w) as [[a | e] w']; simpl in *.
  - exact Hm.
  - now apply Hh.
Qed.

(** A property of the dictionary that survives calls into PyDAQmx and
    assignments to [self.task] survives every entry point. *)
Section Keeps.

Context (daq : PyDAQmx) {box : Int32Box} (P : world -> Prop).
Hypothesis P_record : forall w e, P w -> P (record w e).
Hypothesis P_task : forall w v, P w -> P (store w "task" v).

Local Ltac keeps_step :=
  first
    [ apply keeps_bind; [| intros ? ]
    | apply keeps_getattr
    | apply keeps_the_daq
    | apply keeps_perform; exact P_record
    | apply keeps_setattr; intros; now apply P_task
    | apply keeps_pure; intros; reflexivity
    | match goal with |- keeps _ (if ?b then _ else _) => destruct b end
    | match goal with |- keeps _ (match ?d with PyNone => _ | _ => _ end) => destruct d end ].

Lemma keeps_clear_pending_task : keeps P (clear_pending_task daq).
Proof. unfold clear_pending_task. repeat keeps_step. Qed.

Lemma keeps_done_callback_py th status cd : keeps P (done_callback_py daq th status cd).
Proof.
  unfold done_callback_py. apply keeps_bind; [apply keeps_getattr | intros task].
  destruct (py_eq th task); [apply keeps_clear_pending_task | now apply keeps_pure].
Qed.

Lemma keeps_ping : keeps P (ping daq).
Proof.
  unfold ping, ping_query. apply keeps_try_except; [| intros e; now apply keeps_pure].
  repeat keeps_step.
Qed.

Lemma keeps_arm_new_task f vs : keeps P (arm_new_task daq f vs).
Proof. unfold arm_new_task. repeat keeps_step. Qed.

Lemma keeps_load_sample_values f vs : keeps P (load_sample_values daq f vs).
Proof.
  unfold load_sample_values.
  apply keeps_bind; [apply keeps_clear_pending_task | intros _; apply keeps_arm_new_task].
Qed.

Lemma keeps_run o w : P w -> P (run daq o w).
Proof.
  destruct o; simpl.
  - apply keeps_load_sample_values.
  - apply keeps_ping.
  - apply keeps_clear_pending_task.
  - apply keeps_clear_pending_task.
  - apply keeps_done_callback_py.
Qed.

End Keeps.

Lemma wf_record w e : wf w -> wf (record w e).
Proof. now unfold wf. Qed.

Lemma wf_store_task w v : wf w -> wf (store w "task" v).
Proof.
  unfold wf, store; simpl. intros (Hd & Hc & Hk & Ht).
  rewrite !lookup_insert_ne by done. rewrite lookup_insert_eq.
  repeat split; eauto.
Qed.

Lemma no_device_record w e : no_device w -> no_device (record w e).
Proof. intros [Hw Hd]. split; [now apply wf_record | exact Hd]. Qed.

Lemma no_device_store_task w v : no_device w -> no_device (store w "task" v).
Proof.
  intros [Hw Hd]. split; [now apply wf_store_task |].
  unfold store; simpl. now rewrite lookup_insert_ne by done.
Qed.

(** [__init__] assigns [channels], [clock], [task] and [daq], nothing else. *)
Lemma DAQmx_init_no_device channels clock w :
  DAQmx_init channels clock new_object = (Return tt, w) -> no_device w.
Proof.
  unfold DAQmx_init. rewrite bind_lift.
  destruct (string_to_bytes channels "channels") as [c | e]; [| discriminate].
  rewrite bind_setattr, bind_lift.
  destruct (string_to_bytes clock "clock") as [k | e]; [| discriminate].
  rewrite !bind_setattr. unfold setattr. intros [= <-].
  unfold no_device, wf, store, new_object; simpl.
  rewrite lookup_insert_eq.
  repeat (rewrite lookup_insert_ne by done; rewrite ?lookup_insert_eq).
  rewrite lookup_empty. repeat split; eauto.
Qed.

Lemma reachable_no_device daq {box : Int32Box} w :
  reachable daq w -> no_device w.
Proof.
  induction 1 as [channels clock w Hinit | o w _ IH].
  - now apply DAQmx_init_no_device with channels clock.
  - apply keeps_run; auto using no_device_record, no_device_store_task.
Qed.

(** ** [clear_pending_task] *)

Lemma clear_pending_task_idle daq w :
  attrs w !! "task" = Some PyNone -> clear_pending_task daq w = (Return tt, w).
Proof.
  intros Ht. unfold clear_pending_task.
  now rewrite (bind_Return _ _ _ _ _ (getattr_Some _ _ _ Ht)).
Qed.

Lemma clear_pending_task_pending daq w task :
  attrs w !! "daq" = Some PyModule ->
  attrs w !! "task" = Some task -> is_none task = false ->
  clear_pending_task daq w =
    match daq_error daq (trace w) (DAQmxClearTask task) with
    | Some code =>
        (Raise (DAQError code),
         record w {| ev_call := DAQmxClearTask task; ev_error := Some code |})
    | None =>
        (Return tt,
         store (record w {| ev_call := DAQmxClearTask task; ev_error := None |})
               "task" PyNone)
    end.
Proof.
  intros Hd Ht Hn. unfold clear_pending_task.
  rewrite (bind_Return _ _ _ _ _ (getattr_Some _ _ _ Ht)), Hn.
  rewrite (bind_Return _ _ _ _ _ (the_daq_ok _ _ Hd)).
  rewrite (bind_Return _ _ _ _ _ (getattr_Some _ _ _ Ht)).
  rewrite bind_perform.
  now destruct (daq_error daq (trace w) (DAQmxClearTask task)).
Qed.

Lemma task_after_clear w e :
  attrs (store (record w e) "task" PyNone) !! "task" = Some PyNone.
Proof. unfold store; simpl. apply lookup_insert_eq. Qed.

(** ** The completion callback *)

Lemma done_callback_py_mismatch daq taskhandle status callback_data w task :
  attrs w !! "task" = Some task ->
  py_eq taskhandle task = false ->
  done_callback_py daq taskhandle status callback_data w = (Return tt, w).
Proof.
  intros Ht Hne. unfold done_callback_py.
  now rewrite (bind_Return _ _ _ _ _ (getattr_Some _ _ _ Ht)), Hne.
Qed.

(** C5: a done-notification whose identity does not match the current
    [task] returns without touching the instance or the hardware. *)
Theorem done_callback_py_stale_identity daq taskhandle status callback_data w task :
  attrs w !! "task" = Some task ->
  py_eq taskhandle task = false ->
  done_callback_py daq taskhandle status callback_data w = (Return tt, w).
Proof. apply done_callback_py_mismatch. Qed.

Lemma done_callback_py_stale_identity_witness :
  done_callback_py (board 2 4 accept_all) (PyHandle 5) 0 PyNone (driver_with_task 3)
  = (Return tt, driver_with_task 3).
Proof.
  apply (done_callback_py_stale_identity _ _ _ _ _ (PyHandle 3)); reflexivity.
Defined.

(** The method on a state that holds a task: a done-notification whose
    identity matches the task clears it once, with one [DAQmxClearTask]
    that the hardware accepts; the same notification delivered again
    finds the slot empty and changes nothing. *)
Theorem done_callback_py_clears_once daq taskhandle status callback_data w :
  attrs w !! "daq" = Some PyModule ->
  attrs w !! "task" = Some taskhandle ->
  is_none taskhandle = false ->
  daq_error daq (trace w) (DAQmxClearTask taskhandle) = None ->
  let w1 := store (record w {| ev_call := DAQmxClearTask taskhandle; ev_error := None |})
                  "task" PyNone in
  done_callback_py daq taskhandle status callback_data w = (Return tt, w1) /\
  attrs w1 !! "task" = Some PyNone /\
  done_callback_py daq taskhandle status callback_data w1 = (Return tt, w1).
Proof.
  intros Hd Ht Hn Hok w1. split; [| split].
  - unfold done_callback_py.
    rewrite (bind_Return _ _ _ _ _ (getattr_Some _ _ _ Ht)), py_eq_refl.
    now rewrite (clear_pending_task_pending _ _ _ Hd Ht Hn), Hok.
  - apply task_after_clear.
  - apply done_callback_py_mismatch with PyNone; [apply task_after_clear |].
    now rewrite py_eq_None_r.
Qed.

(** The method on a state that holds a task: a done-notification whose
    identity matches [task] does exactly what [clear_pending_task] does.  When a task is
    held and the hardware accepts, that is one [DAQmxClearTask] on the
    finished task followed by the release of the reference, after which
    [load_sample_values] starts with no cancel of its own. *)
Theorem done_callback_py_matching_identity daq {box : Int32Box}
    taskhandle status callback_data w task :
  attrs w !! "daq" = Some PyModule ->
  attrs w !! "task" = Some task ->
  py_eq taskhandle task = true ->
  is_none task = false ->
  daq_error daq (trace w) (DAQmxClearTask task) = None ->
  let w1 := store (record w {| ev_call := DAQmxClearTask task; ev_error := None |})
                  "task" PyNone in
  done_callback_py daq taskhandle status callback_data w = clear_pending_task daq w /\
  done_callback_py daq taskhandle status callback_data w = (Return tt, w1) /\
  forall sampling_freq values,
    load_sample_values daq sampling_freq values w1 = arm_new_task daq sampling_freq values w1.
Proof.
  intros Hd Ht Heq Hn Hok w1.
  assert (Hcb : done_callback_py daq taskhandle status callback_data w
                = clear_pending_task daq w).
  { unfold done_callback_py.
    now rewrite (bind_Return _ _ _ _ _ (getattr_Some _ _ _ Ht)), Heq. }
  split; [exact Hcb | split].
  - now rewrite Hcb, (clear_pending_task_pending _ _ _ Hd Ht Hn), Hok.
  - intros f vs. unfold load_sample_values. subst w1.
    now rewrite (bind_Return _ _ _ _ _ (clear_pending_task_idle daq _ (task_after_clear _ _))).
Qed.

(** ** [ping] *)

(** C9: [ping] always returns a boolean, never an exception; it is
    [True] exactly when the identity query ran to its end. *)
Theorem ping_never_raises daq w :
  exists b, fst (ping daq w) = Return b /\
            (b = true <-> fst (ping_query daq w) = Return tt).
Proof.
  unfold ping, try_except, bind, ret.
  destruct (ping_query daq w) as [[[] | e] w']; simpl.
  - exists true. split; [reflexivity | tauto].
  - exists false. split; [reflexivity |]. split; discriminate.
Qed.

Lemma ping_no_device daq w :
  no_device w -> ping daq w = (Return false, w).
Proof.
  intros [(Hd & _) Hnone].
  unfold ping, try_except, ping_query.
  rewrite bind_assoc, (bind_Return _ _ _ _ _ (the_daq_ok _ _ Hd)).
  rewrite bind_assoc, (bind_Raise _ _ _ _ _ (getattr_None _ _ Hnone)).
  reflexivity.
Qed.

(** C7: on a driver built by [__init__] and used through its methods,
    [ping] returns [False] every time: [self.device] does not exist, the
    query stops there and never reaches the hardware. *)
Theorem ping_False_on_hardware daq {box : Int32Box} w :
  reachable daq w -> ping daq w = (Return false, w).
Proof.
  intros Hr. apply ping_no_device. exact (reachable_no_device daq w Hr).
Qed.

Lemma ping_False_on_hardware_witness :
  let daq := board 2 4 accept_all in
  let w := @run daq ctypes_int32 (OpLoad 1000%float [1.0; 2.0; 3.0; 4.0]%float) fresh_driver in
  ping daq w = (Return false, w).
Proof.
  apply (@ping_False_on_hardware (board 2 4 accept_all) ctypes_int32).
  apply reachable_run.
  apply (@reachable_init (board 2 4 accept_all) ctypes_int32
           (PyStr "Dev1/ao0:1") (PyStr "PFI5")).
  reflexivity.
Defined.

(** ** Running [load_sample_values] path by path *)

Ltac lookup_attr :=
  cbn [attrs trace record store];
  repeat first [ rewrite lookup_insert_eq | rewrite lookup_insert_ne by done ];
  first [ eassumption | reflexivity ].

(** One statement of the method under the cursor: attribute reads are
    resolved from the context, every call into PyDAQmx and every test
    splits the path in two. *)
Ltac exec1 :=
  lazymatch goal with
  | |- context [bind (bind ?m ?k1) ?k2 ?w] => rewrite (bind_assoc m k1 k2 w)
  | |- context [bind (the_daq ?m) ?k ?w] =>
      rewrite (bind_Return (the_daq m) k w tt w) by (apply the_daq_ok; lookup_attr)
  | |- context [bind (getattr ?n) ?k ?w] =>
      erewrite (bind_Return (getattr n) k w) by (apply getattr_Some; lookup_attr)
  | |- context [bind history ?k ?w] => rewrite (bind_history k w)
  | |- context [bind (setattr ?n ?v) ?k ?w] => rewrite (bind_setattr n v k w)
  | |- context [bind (ret ?a) ?k ?w] => rewrite (bind_ret a k w)
  | |- context [bind (raise ?e) ?k ?w] => rewrite (bind_raise e k w)
  | |- context [bind (lift (Return ?a)) ?k ?w] => rewrite (bind_lift (Return a) k w)
  | |- context [bind (lift ?r) ?k ?w] => rewrite (bind_lift r k w); destruct r eqn:?
  | |- context [bind (perform ?d ?c) ?k ?w] =>
      rewrite (bind_perform d c k w); destruct (daq_error d (trace w) c) eqn:?
  | |- context [bind (if ?b then _ else _) ?k ?w] => destruct b eqn:?
  | |- context [perform ?d ?c ?w] =>
      rewrite (perform_eq d c w); destruct (daq_error d (trace w) c) eqn:?
  end; cbv beta zeta.

Section Paths.

Context (daq : PyDAQmx) {box : Int32Box}.

(** How [arm_new_task] can end: before line 118 it raises and the
    dictionary is as it was; from line 118 on the new handle is stored,
    and only a refused registration or start can still raise. *)
Lemma arm_new_task_exits f vs w c k r w' :
  attrs w !! "daq" = Some PyModule ->
  attrs w !! "channels" = Some c ->
  attrs w !! "clock" = Some k ->
  arm_new_task daq f vs w = (r, w') ->
  (attrs w' = attrs w /\ exists e, r = Raise e) \/
  (attrs w' = <["task" := PyHandle (daq_taskHandle daq (trace w))]> (attrs w) /\
   (r = Return tt \/
    exists code call tr,
      r = Raise (DAQError code) /\
      trace w' = (tr ++ [{| ev_call := call; ev_error := Some code |}])%list /\
      (call = DAQmxRegisterDoneEvent (PyHandle (daq_taskHandle daq (trace w))) \/
       call = StartTask (daq_taskHandle daq (trace w))))).
Proof.
  intros Hd Hc Hk. unfold arm_new_task.
  repeat exec1; intros [= <- <-]; cbn [attrs trace record store].
  all: try (left; split; [reflexivity | eexists; reflexivity]).
  all: right; split; [reflexivity |].
  all: try (left; reflexivity).
  all: right; do 3 eexists; split; [reflexivity | split; [reflexivity |]]; auto.
Qed.

(** How the initial clearing can end. *)
Lemma clear_pending_task_exits w r w' :
  wf w ->
  clear_pending_task daq w = (r, w') ->
  (r = Return tt /\ wf w' /\ attrs w' !! "task" = Some PyNone /\
   (forall name, name <> "task" -> attrs w' !! name = attrs w !! name)) \/
  (exists code old,
     r = Raise (DAQError code) /\ attrs w !! "task" = Some old /\ is_none old = false /\
     w' = record w {| ev_call := DAQmxClearTask old; ev_error := Some code |}).
Proof.
  intros Hwf. pose proof Hwf as (Hd & _ & _ & [task Ht]).
  destruct (is_none task) eqn:Hn.
  - destruct task; try discriminate.
    rewrite (clear_pending_task_idle _ _ Ht). intros [= <- <-].
    left. auto.
  - rewrite (clear_pending_task_pending _ _ _ Hd Ht Hn).
    destruct (daq_error daq (trace w) (DAQmxClearTask task)) as [code |]; intros [= <- <-].
    + right. eauto 6.
    + left. split; [reflexivity |]. split; [| split].
      * now apply wf_store_task, wf_record.
      * apply task_after_clear.
      * intros name Hne. unfold store; simpl. now rewrite lookup_insert_ne.
Qed.

End Paths.

(** ** Error exits of [load_sample_values] *)

Lemma load_sample_values_cases daq {box : Int32Box} f vs w r w' :
  load_sample_values daq f vs w = (r, w') ->
  (exists e, clear_pending_task daq w = (Raise e, w') /\ r = Raise e) \/
  (exists w1, clear_pending_task daq w = (Return tt, w1) /\
              arm_new_task daq f vs w1 = (r, w')).
Proof.
  unfold load_sample_values, bind.
  destruct (clear_pending_task daq w) as [[[] | e] w1]; intros H.
  - right. eauto.
  - injection H as <- <-. left. eauto.
Qed.

(** The method on any well-formed state, whatever the class of the box:
    an error exit of [load_sample_values] leaves [task] empty, and then the initial clearing of the next call does
    nothing, with two exceptions, both hardware errors: the initial
    clearing was refused and the old task is still held, or the
    registration or the start was refused after line 118 stored the new
    task.  The method's own errors ([InvalidBufferSize],
    [IncompleteWrite], [WriteFailed]) are never among the exceptions. *)
Theorem load_sample_values_error_exits daq {box : Int32Box} sampling_freq values w e w' :
  wf w ->
  load_sample_values daq sampling_freq values w = (Raise e, w') ->
  ((attrs w' !! "task" = Some PyNone /\ clear_pending_task daq w' = (Return tt, w')) \/
   (exists code call tr,
      e = DAQError code /\
      trace w' = (tr ++ [{| ev_call := call; ev_error := Some code |}])%list /\
      ((exists old, call = DAQmxClearTask old /\ tr = trace w /\
                    attrs w !! "task" = Some old /\ attrs w' = attrs w) \/
       (exists t, (call = DAQmxRegisterDoneEvent (PyHandle t) \/ call = StartTask t) /\
                  attrs w' !! "task" = Some (PyHandle t))))) /\
  ((forall code, e <> DAQError code) ->
   attrs w' !! "task" = Some PyNone /\ clear_pending_task daq w' = (Return tt, w')).
Proof.
  intros Hwf Hload.
  assert (Hmain :
    (attrs w' !! "task" = Some PyNone /\ clear_pending_task daq w' = (Return tt, w')) \/
    (exists code call tr,
       e = DAQError code /\
       trace w' = (tr ++ [{| ev_call := call; ev_error := Some code |}])%list /\
       ((exists old, call = DAQmxClearTask old /\ tr = trace w /\
                     attrs w !! "task" = Some old /\ attrs w' = attrs w) \/
        (exists t, (call = DAQmxRegisterDoneEvent (PyHandle t) \/ call = StartTask t) /\
                   attrs w' !! "task" = Some (PyHandle t))))).
  { destruct (load_sample_values_cases _ _ _ _ _ _ Hload)
      as [(e0 & Hclear & He) | (w1 & Hclear & Harm)].
    - injection He as <-.
      destruct (clear_pending_task_exits daq _ _ _ Hwf Hclear)
        as [(Habs & _) | (code & old & Hr & Hold & _ & Hw')]; [discriminate |].
      injection Hr as ->. subst w'.
      right. exists code, (DAQmxClearTask old), (trace w).
      split; [reflexivity | split; [reflexivity |]]. left. eauto.
    - destruct (clear_pending_task_exits daq _ _ _ Hwf Hclear)
        as [(_ & Hwf1 & Hnone & _) | (code & old & Hr & _)]; [| discriminate].
      pose proof Hwf1 as (Hd & [c Hc] & [k Hk] & _).
      destruct (arm_new_task_exits daq _ _ _ _ _ _ _ Hd Hc Hk Harm)
        as [(Hsame & _) | (Hstored & [Hret | (code & call & tr & He & Htr & Hcall)])].
      + left. assert (Ht : attrs w' !! "task" = Some PyNone) by now rewrite Hsame.
        split; [exact Ht | now apply clear_pending_task_idle].
      + discriminate.
      + injection He as ->. right. exists code, call, tr.
        split; [reflexivity | split; [exact Htr |]]. right.
        exists (daq_taskHandle daq (trace w1)). split; [exact Hcall |].
        rewrite Hstored. apply lookup_insert_eq. }
  split; [exact Hmain |].
  intros Hown. destruct Hmain as [H | (code & _ & _ & He & _)]; [exact H |].
  now destruct (Hown code).
Qed.

(** ** One task at a time *)

Lemma armed_snoc tr e h : armed (tr ++ [e]) h = arms h (armed tr h) e.
Proof. unfold armed. now rewrite fold_left_app. Qed.

Lemma at_most_one_idle w :
  at_most_one w -> attrs w !! "task" = Some PyNone -> none_armed w.
Proof.
  intros Hone Ht h. destruct (armed (trace w) h) eqn:Ha; [| reflexivity].
  apply Hone in Ha. congruence.
Qed.

Lemma none_armed_at_most_one w : none_armed w -> at_most_one w.
Proof. intros Hnone h Ha. now rewrite Hnone in Ha. Qed.

Section OneTask.

Context (daq : PyDAQmx) {box : Int32Box}.

(** An accepted [DAQmxClearTask] on the held task leaves nothing armed;
    a refused one changes nothing. *)
Lemma clear_pending_task_at_most_one w r w' :
  wf w -> at_most_one w ->
  clear_pending_task daq w = (r, w') ->
  at_most_one w' /\ (r = Return tt -> none_armed w').
Proof.
  intros Hwf Hone. pose proof Hwf as (Hd & _ & _ & [task Ht]).
  destruct (is_none task) eqn:Hn.
  - destruct task; try discriminate.
    rewrite (clear_pending_task_idle _ _ Ht). intros [= <- <-].
    split; [exact Hone | intros _; now apply at_most_one_idle].
  - rewrite (clear_pending_task_pending _ _ _ Hd Ht Hn).
    destruct (daq_error daq (trace w) (DAQmxClearTask task)) as [code |]; intros [= <- <-].
    + split; [| discriminate].
      intros h. cbn [trace attrs record]. rewrite armed_snoc. cbn. apply Hone.
    + assert (Hnone : none_armed
                (store (record w {| ev_call := DAQmxClearTask task; ev_error := None |})
                       "task" PyNone)).
      { intros h. cbn [trace attrs record store]. rewrite armed_snoc.
        destruct (armed (trace w) h) eqn:Ha.
        - apply Hone in Ha. rewrite Ht in Ha. injection Ha as ->.
          cbn. now rewrite Z.eqb_refl.
        - cbn. destruct task; try reflexivity. now destruct (h0 =? h). }
      split; [now apply none_armed_at_most_one | intros _; exact Hnone].
Qed.

(** With nothing armed, [arm_new_task] arms at most the task it stores,
    and when it returns that task is stored and armed. *)
Lemma arm_new_task_at_most_one f vs w c k r w' :
  attrs w !! "daq" = Some PyModule ->
  attrs w !! "channels" = Some c ->
  attrs w !! "clock" = Some k ->
  none_armed w ->
  arm_new_task daq f vs w = (r, w') ->
  at_most_one w' /\
  (r = Return tt ->
   attrs w' !! "task" = Some (PyHandle (daq_taskHandle daq (trace w))) /\
   armed (trace w') (daq_taskHandle daq (trace w)) = true).
Proof.
  intros Hd Hc Hk Hnone. unfold arm_new_task.
  repeat exec1; intros [= <- <-].
  all: split;
    [ intros h; cbn [trace attrs record store]; rewrite !armed_snoc;
      cbn [arms ev_error ev_call]; rewrite (Hnone h);
      repeat case Z.eqb_spec; intros; subst; try discriminate; lookup_attr
    | try discriminate ].
  intros _. split; [lookup_attr |].
  cbn [trace attrs record store]. rewrite !armed_snoc.
  cbn [arms ev_error ev_call]. now rewrite Z.eqb_refl.
Qed.

Lemma load_sample_values_at_most_one f vs w r w' :
  wf w -> at_most_one w ->
  load_sample_values daq f vs w = (r, w') ->
  at_most_one w'.
Proof.
  intros Hwf Hone Hload.
  destruct (load_sample_values_cases _ _ _ _ _ _ Hload)
    as [(e & Hclear & _) | (w1 & Hclear & Harm)].
  - now destruct (clear_pending_task_at_most_one _ _ _ Hwf Hone Hclear).
  - destruct (clear_pending_task_at_most_one _ _ _ Hwf Hone Hclear) as [_ Hnone].
    destruct (clear_pending_task_exits daq _ _ _ Hwf Hclear)
      as [(_ & (Hd & [c Hc] & [k Hk] & _) & _) | (code & old & Hr & _)]; [| discriminate].
    now destruct (arm_new_task_at_most_one _ _ _ _ _ _ _ Hd Hc Hk (Hnone eq_refl) Harm).
Qed.

Lemma DAQmx_init_trace channels clock w :
  DAQmx_init channels clock new_object = (Return tt, w) -> trace w = [].
Proof.
  unfold DAQmx_init. rewrite bind_lift.
  destruct (string_to_bytes channels "channels") as [c | e]; [| discriminate].
  rewrite bind_setattr, bind_lift.
  destruct (string_to_bytes clock "clock") as [k | e]; [| discriminate].
  rewrite !bind_setattr. unfold setattr. now intros [= <-].
Qed.

Lemma run_at_most_one o w :
  no_device w -> at_most_one w -> at_most_one (run daq o w).
Proof.
  intros Hnd Hone. pose proof Hnd as [Hwf _].
  destruct o as [f vs | | | | th status cd]; simpl.
  - destruct (load_sample_values daq f vs w) as [r w'] eqn:Hload.
    now apply (load_sample_values_at_most_one _ _ _ _ _ Hwf Hone Hload).
  - now rewrite ping_no_device.
  - unfold close. destruct (clear_pending_task daq w) as [r w'] eqn:Hclear.
    now destruct (clear_pending_task_at_most_one _ _ _ Hwf Hone Hclear).
  - destruct (clear_pending_task daq w) as [r w'] eqn:Hclear.
    now destruct (clear_pending_task_at_most_one _ _ _ Hwf Hone Hclear).
  - unfold done_callback_py. pose proof Hwf as (_ & _ & _ & [task Ht]).
    rewrite (bind_Return _ _ _ _ _ (getattr_Some _ _ _ Ht)).
    destruct (py_eq th task); [| exact Hone].
    destruct (clear_pending_task daq w) as [r w'] eqn:Hclear.
    now destruct (clear_pending_task_at_most_one _ _ _ Hwf Hone Hclear).
Qed.

Lemma reachable_at_most_one w : reachable daq w -> at_most_one w.
Proof.
  induction 1 as [channels clock w Hinit | o w Hr IH].
  - intros h. now rewrite (DAQmx_init_trace _ _ _ Hinit).
  - apply run_at_most_one; [exact (reachable_no_device daq w Hr) | exact IH].
Qed.

End OneTask.

(** ** The size check of [load_sample_values] *)

Lemma keeps_trace_prefix_arm daq {box : Int32Box} f vs w :
  exists rest, trace (snd (arm_new_task daq f vs w)) = (trace w ++ rest)%list.
Proof.
  apply (keeps_arm_new_task daq (fun w' => exists rest, trace w' = (trace w ++ rest)%list)).
  - intros w' e [rest Hrest]. exists (rest ++ [e])%list.
    cbn [trace record]. now rewrite Hrest, app_assoc.
  - intros w' v Hw'. exact Hw'.
  - exists []. now rewrite app_nil_r.
Qed.

Section SizeCheck.

Context (daq : PyDAQmx) {box : Int32Box} (k : Z).
Hypothesis accepts : forall tr c, daq_error daq tr c = None.
Hypothesis channels : forall tr t, daq_numChans daq tr t = k.
Hypothesis k_pos : 1 <= k.

Local Ltac prune :=
  try match goal with
      | H : daq_error daq _ _ = Some _ |- _ => rewrite accepts in H; discriminate H
      | H : py_min (_ :: _) = Raise _ |- _ => discriminate H
      | H : py_max (_ :: _) = Raise _ |- _ => discriminate H
      | H : py_mod _ (daq_numChans daq _ _) = _ |- _ =>
          rewrite channels in H; unfold py_mod in H;
          destruct (Z.eqb_spec k 0); [lia |];
          first [discriminate H | injection H as <-]
      end.

(** A buffer that is not a multiple of the channel count: the task is
    created, its channel count read, the task cleared, the error raised. *)
Lemma arm_new_task_rejects f values w c clk :
  attrs w !! "daq" = Some PyModule ->
  attrs w !! "channels" = Some c ->
  attrs w !! "clock" = Some clk ->
  values <> [] ->
  Z.of_nat (length values) mod k <> 0 ->
  exists lo hi,
    arm_new_task daq f values w =
      (Raise (InvalidBufferSize k),
       let t := daq_taskHandle daq (trace w) in
       record (record (record (record w
         {| ev_call := Task; ev_error := None |})
         {| ev_call := CreateAOVoltageChan t c lo hi; ev_error := None |})
         {| ev_call := GetTaskNumChans t; ev_error := None |})
         {| ev_call := DAQmxClearTask (PyHandle t); ev_error := None |}).
Proof.
  intros Hd Hc Hk Hne Hmod. destruct values as [| x xs]; [contradiction |].
  pose proof (Z.mod_pos_bound (Z.of_nat (length (x :: xs))) k ltac:(lia)) as Hb.
  unfold arm_new_task.
  repeat (exec1; prune).
  all: try (exfalso;
            match goal with
            | H : (_ >? 0) = false |- _ =>
                rewrite Z.gtb_ltb in H; apply Z.ltb_ge in H; cbn [length] in *; lia
            end).
  do 2 eexists. cbv zeta. rewrite channels. reflexivity.
Qed.

(** A buffer that is a multiple of the channel count is never refused
    for its size. *)
Lemma arm_new_task_passes f values w c clk :
  attrs w !! "daq" = Some PyModule ->
  attrs w !! "channels" = Some c ->
  attrs w !! "clock" = Some clk ->
  (forall a b msg, int_floordiv_box a b <> Raise (ValueError msg)) ->
  values <> [] ->
  Z.of_nat (length values) mod k = 0 ->
  forall msg, fst (arm_new_task daq f values w) <> Raise (ValueError msg).
Proof.
  intros Hd Hc Hk Hbox Hne Hmod msg. destruct values as [| x xs]; [contradiction |].
  unfold arm_new_task.
  repeat (exec1; prune); cbn [fst]; try discriminate.
  - exfalso. cbn [length] in *. rewrite Hmod in Heqb. discriminate.
  - intros [= ->].
    match goal with H : int_floordiv_box _ _ = Raise _ |- _ => exact (Hbox _ _ _ H) end.
Qed.

End SizeCheck.

Lemma clear_pending_task_accepted daq w :
  wf w ->
  (forall tr c, daq_error daq tr c = None) ->
  exists w1, clear_pending_task daq w = (Return tt, w1) /\
             wf w1 /\ attrs w1 !! "task" = Some PyNone.
Proof.
  intros Hwf Hacc. destruct (clear_pending_task daq w) as [r w1] eqn:Hclear.
  pose proof Hwf as (Hd & _ & _ & [task Ht]).
  destruct (clear_pending_task_exits daq _ _ _ Hwf Hclear)
    as [(-> & Hwf1 & Hnone & _) | (code & old & _ & Hold & Hn & _)].
  - eauto.
  - rewrite (clear_pending_task_pending _ _ _ Hd Hold Hn), Hacc in Hclear.
    injection Hclear as <- <-.
    eexists. split; [reflexivity |].
    split; [now apply wf_store_task, wf_record | apply task_after_clear].
Qed.

(** The size check, whatever the class of the box: on hardware that
    accepts every call and resolves [k >= 1] channels, and for a non-empty buffer of [n] samples,
    [load_sample_values] fails with [InvalidBufferSize] exactly when [n]
    is not a multiple of [k]; in that case the last thing it did was to
    clear the task it had just created, and [task] is empty. *)
Theorem load_sample_values_size_check daq {box : Int32Box} k sampling_freq values w :
  wf w ->
  (forall tr c, daq_error daq tr c = None) ->
  (forall tr t, daq_numChans daq tr t = k) ->
  1 <= k ->
  (forall a b msg, int_floordiv_box a b <> Raise (ValueError msg)) ->
  values <> [] ->
  let n := Z.of_nat (length values) in
  let out := load_sample_values daq sampling_freq values w in
  (fst out = Raise (InvalidBufferSize k) <-> n mod k <> 0) /\
  (n mod k <> 0 ->
   attrs (snd out) !! "task" = Some PyNone /\
   exists tr c lo hi,
     let t := daq_taskHandle daq tr in
     trace (snd out) =
       (tr ++ [ {| ev_call := Task; ev_error := None |};
                {| ev_call := CreateAOVoltageChan t c lo hi; ev_error := None |};
                {| ev_call := GetTaskNumChans t; ev_error := None |};
                {| ev_call := DAQmxClearTask (PyHandle t); ev_error := None |} ])%list).
Proof.
  intros Hwf Hacc Hchan Hk Hbox Hne n out.
  destruct (clear_pending_task_accepted daq w Hwf Hacc) as (w1 & Hclear & Hwf1 & Hnone).
  pose proof Hwf1 as (Hd & [c Hc] & [clk Hclk] & _).
  assert (Hout : out = arm_new_task daq sampling_freq values w1).
  { subst out. unfold load_sample_values. now rewrite (bind_Return _ _ _ _ _ Hclear). }
  assert (Hrej : n mod k <> 0 ->
            fst out = Raise (InvalidBufferSize k) /\
            attrs (snd out) !! "task" = Some PyNone /\
            exists tr c lo hi,
              let t := daq_taskHandle daq tr in
              trace (snd out) =
                (tr ++ [ {| ev_call := Task; ev_error := None |};
                         {| ev_call := CreateAOVoltageChan t c lo hi; ev_error := None |};
                         {| ev_call := GetTaskNumChans t; ev_error := None |};
                         {| ev_call := DAQmxClearTask (PyHandle t); ev_error := None |} ])%list).
  { intros Hmod.
    destruct (arm_new_task_rejects daq k Hacc Hchan Hk sampling_freq values w1 c clk
                Hd Hc Hclk Hne Hmod) as (lo & hi & Harm).
    rewrite Hout, Harm. cbn [fst snd]. split; [reflexivity |]. split; [exact Hnone |].
    exists (trace w1), c, lo, hi. cbn [trace record]. now rewrite <- !app_assoc. }
  split; [split |].
  - intros Hfail Hmod.
    apply (arm_new_task_passes daq k Hacc Hchan Hk sampling_freq values w1 c clk
             Hd Hc Hclk Hbox Hne Hmod
             (String.append
                "The size of the values array must be a multiple of the number of channels ("
                (String.append (str_of_int k) ")"))).
    now rewrite <- Hout.
  - intros Hmod. now apply Hrej.
  - intros Hmod. now apply Hrej.
Qed.

(** ** Two calls in a row *)

(** Two calls, whatever the class of the box.  After two successive
    calls from any state the driver can be in: at most one hardware task is armed and it is the
    one in [task]; the second call begins by clearing whatever the first
    one left; once that clearing is through, [task] is empty or holds the
    task the second call created, never an older one; and when the second
    call returns, exactly one task is armed, its own. *)
Theorem load_sample_values_supersedes daq {box : Int32Box} f1 vs1 f2 vs2 w :
  reachable daq w ->
  let w1 := run daq (OpLoad f1 vs1) w in
  let out := load_sample_values daq f2 vs2 w1 in
  let w2 := snd out in
  at_most_one w2 /\
  (forall old, attrs w1 !! "task" = Some old -> is_none old = false ->
     exists rest,
       trace w2 =
         (trace w1 ++ {| ev_call := DAQmxClearTask old;
                         ev_error := daq_error daq (trace w1) (DAQmxClearTask old) |}
                      :: rest)%list) /\
  (forall w1c, clear_pending_task daq w1 = (Return tt, w1c) ->
     attrs w2 !! "task" = Some PyNone \/
     attrs w2 !! "task" = Some (PyHandle (daq_taskHandle daq (trace w1c)))) /\
  (fst out = Return tt ->
     exists t, attrs w2 !! "task" = Some (PyHandle t) /\
               armed (trace w2) t = true /\
               forall h, armed (trace w2) h = true -> h = t).
Proof.
  intros Hr w1 out w2.
  assert (Hr1 : reachable daq w1) by now apply reachable_run.
  pose proof (reachable_no_device daq w1 Hr1) as [Hwf1 _].
  pose proof (reachable_at_most_one daq w1 Hr1) as Hone1.
  assert (Hone2 : at_most_one w2).
  { apply (reachable_at_most_one daq).
    exact (reachable_run daq (OpLoad f2 vs2) w1 Hr1). }
  assert (Hout : load_sample_values daq f2 vs2 w1 = (fst out, w2)).
  { subst w2 out. now destruct (load_sample_values daq f2 vs2 w1). }
  pose proof Hwf1 as (Hd & _).
  split; [exact Hone2 | split; [| split]].
  - intros old Hold Hn. subst w2 out. unfold load_sample_values, bind.
    rewrite (clear_pending_task_pending _ _ _ Hd Hold Hn).
    destruct (daq_error daq (trace w1) (DAQmxClearTask old)) as [code |].
    + exists []. reflexivity.
    + match goal with
      | |- context [arm_new_task daq f2 vs2 ?w] =>
          destruct (keeps_trace_prefix_arm daq f2 vs2 w) as [rest Hrest]
      end.
      exists rest. rewrite Hrest. cbn [trace record store]. now rewrite <- app_assoc.
  - intros w1c Hclear.
    destruct (clear_pending_task_exits daq _ _ _ Hwf1 Hclear)
      as [(_ & (Hd1 & [c Hc] & [k Hk] & _) & Hnone & _) | (code & old & Hr' & _)];
      [| discriminate].
    assert (Harm : arm_new_task daq f2 vs2 w1c = (fst out, w2)).
    { rewrite <- Hout. unfold load_sample_values.
      now rewrite (bind_Return _ _ _ _ _ Hclear). }
    destruct (arm_new_task_exits daq _ _ _ _ _ _ _ Hd1 Hc Hk Harm)
      as [(Hsame & _) | (Hstored & _)].
    + left. now rewrite Hsame.
    + right. rewrite Hstored. apply lookup_insert_eq.
  - intros Hret. rewrite Hret in Hout.
    destruct (load_sample_values_cases _ _ _ _ _ _ Hout)
      as [(e & _ & He) | (w1c & Hclear & Harm)]; [discriminate |].
    destruct (clear_pending_task_at_most_one daq _ _ _ Hwf1 Hone1 Hclear) as [_ Hnone].
    destruct (clear_pending_task_exits daq _ _ _ Hwf1 Hclear)
      as [(_ & (Hd1 & [c Hc] & [k Hk] & _) & _) | (code & old & Hr' & _)];
      [| discriminate].
    destruct (arm_new_task_at_most_one daq _ _ _ _ _ _ _ Hd1 Hc Hk (Hnone eq_refl) Harm)
      as [_ Hnew].
    destruct (Hnew eq_refl) as [Htask Harmed].
    exists (daq_taskHandle daq (trace w1c)). split; [exact Htask | split; [exact Harmed |]].
    intros h Hh. apply Hone2 in Hh. congruence.
Qed.

(** ** The scenario of the specification *)

(** C8: with two channels, [values = [1.0, 2.0, 3.0, 4.0]] and frequency
    1000 the call does not succeed.  The channel is created with the range
    [1.0, 4.0] and the channel count is read; then line 100 divides by the
    ctypes box instead of its [.value] and raises [TypeError]: no sample
    clock is configured, nothing is written, no task is stored. *)
Theorem load_sample_values_scenario_raises :
  let out := @load_sample_values (board 2 4 accept_all) ctypes_int32
               1000%float [1.0; 2.0; 3.0; 4.0]%float fresh_driver in
  fst out = Raise TypeError /\
  trace (snd out) =
    [ {| ev_call := Task; ev_error := None |};
      {| ev_call := CreateAOVoltageChan 0 (PyBytes "Dev1/ao0:1") 1.0%float 4.0%float;
         ev_error := None |};
      {| ev_call := GetTaskNumChans 0; ev_error := None |} ] /\
  attrs (snd out) !! "task" = Some PyNone.
Proof. vm_compute. repeat split; reflexivity. Qed.

(** ** The simulation stand-in *)

(** C4: the stand-in does not take the arguments of the driver.
    [DAQmx.load_sample_values] has the parameters [sampling_freq] and
    [values], [DAQmxSim.load_sample_values] only [values]: the call every
    client of the driver makes, with a frequency and a buffer, raises
    [TypeError] on the stand-in.  [close] and [ping] do agree, and return
    [None] and [True]. *)
Theorem DAQmxSim_load_sample_values_signature :
  DAQmx_params "load_sample_values" = Some ["sampling_freq"; "values"] /\
  DAQmxSim.params "load_sample_values" = Some ["values"] /\
  DAQmxSim.invoke "load_sample_values"
    [ArgNumber 1000%float; ArgSamples [1.0; 2.0; 3.0; 4.0]%float] = Raise TypeError /\
  DAQmxSim.invoke "load_sample_values" [ArgSamples [1.0; 2.0; 3.0; 4.0]%float]
    = Return RetNone /\
  DAQmxSim.invoke "close" [] = Return RetNone /\
  DAQmxSim.invoke "ping" [] = Return (RetBool true).
Proof. repeat split; reflexivity. Qed.

(** ** What the method does past line 100 *)

(** With a box that divides like the int it holds, which is what line
    100 would see with [.value], the scenario of the specification goes
    through: two samples per channel, range [1.0, 4.0], task 0 stored and
    started. *)
Example scenario_with_intlike_box :
  let out := @load_sample_values (board 2 4 accept_all) intlike_int32
               1000%float [1.0; 2.0; 3.0; 4.0]%float fresh_driver in
  fst out = Return tt /\
  trace (snd out) =
    [ {| ev_call := Task; ev_error := None |};
      {| ev_call := CreateAOVoltageChan 0 (PyBytes "Dev1/ao0:1") 1.0%float 4.0%float;
         ev_error := None |};
      {| ev_call := GetTaskNumChans 0; ev_error := None |};
      {| ev_call := CfgSampClkTiming 0 (PyBytes "PFI5") 1000%float 2; ev_error := None |};
      {| ev_call := WriteAnalogF64 0 2 [1.0; 2.0; 3.0; 4.0]%float; ev_error := None |};
      {| ev_call := DAQmxRegisterDoneEvent (PyHandle 0); ev_error := None |};
      {| ev_call := StartTask 0; ev_error := None |} ] /\
  attrs (snd out) !! "task" = Some (PyHandle 0) /\
  armed (trace (snd out)) 0 = true.
Proof. vm_compute. repeat split; reflexivity. Qed.

(** With the same box a short write is an [IncompleteWrite], although
    the size divides. *)
Example short_write_with_intlike_box :
  fst (@load_sample_values (board 1 0 accept_all) intlike_int32 1000%float [1.0]%float
         fresh_driver)
  = Raise (IncompleteWrite 0).
Proof. reflexivity. Qed.

(** With the same box, a call that succeeds followed by one that is
    refused for its size: the first task is cleared, none is active. *)
Example refused_after_success_with_intlike_box :
  let daq := board 3 3 accept_all in
  let w1 := @run daq intlike_int32 (OpLoad 1000%float [1.0; 2.0; 3.0]%float) fresh_driver in
  let out := @load_sample_values daq intlike_int32 1000%float [1.0; 2.0; 3.0; 4.0]%float w1 in
  attrs w1 !! "task" = Some (PyHandle 0) /\
  armed (trace w1) 0 = true /\
  fst out = Raise (InvalidBufferSize 3) /\
  attrs (snd out) !! "task" = Some PyNone /\
  armed (trace (snd out)) 0 = false.
Proof. vm_compute. repeat split; reflexivity. Qed.

(** With the same box, a refused start leaves the new task in [task]. *)
Example refused_start_with_intlike_box :
  let refuse c := match c with StartTask _ => Some (-200077) | _ => None end in
  let out := @load_sample_values (board 2 4 refuse) intlike_int32
               1000%float [1.0; 2.0; 3.0; 4.0]%float fresh_driver in
  fst out = Raise (DAQError (-200077)) /\
  attrs (snd out) !! "task" = Some (PyHandle 0).
Proof. vm_compute. repeat split; reflexivity. Qed.

(** * Further properties of the driver *)

(** ** [string_to_bytes] and the constructor *)

(** X1: what [string_to_bytes] returns is bytes with the characters of
    its argument, and normalising it again changes nothing. *)
Theorem string_to_bytes_normalises s name r :
  string_to_bytes s name = Return r ->
  exists b, r = PyBytes b /\ (s = PyStr b \/ s = PyBytes b) /\
            forall name', string_to_bytes r name' = Return r.
Proof.
  destruct s as [| s | b | h |]; simpl; try discriminate.
  - destruct (is_ascii s); [| discriminate].
    intros [= <-]. exists s. auto.
  - intros [= <-]. exists b. auto.
Qed.

Lemma string_to_bytes_normalises_witness :
  exists b, PyBytes "PFI5" = PyBytes b /\
            (PyStr "PFI5" = PyStr b \/ PyStr "PFI5" = PyBytes b) /\
            forall name', string_to_bytes (PyBytes "PFI5") name' = Return (PyBytes "PFI5").
Proof.
  apply (string_to_bytes_normalises (PyStr "PFI5") "clock" (PyBytes "PFI5")).
  reflexivity.
Defined.

Lemma string_to_bytes_descriptor s name :
  (exists r, string_to_bytes s name = Return r) <-> is_descriptor s = true.
Proof.
  destruct s as [| s | b | h |]; simpl;
    try (split; [intros [r Hr]; discriminate | discriminate]).
  - destruct (is_ascii s); split; eauto; try discriminate.
    intros [r Hr]. discriminate.
  - split; eauto.
Qed.

(** X2: a constructor that returns leaves exactly four attributes, the
    two descriptors as bytes with the characters it was given, [task]
    empty and [daq] the module, and has made no call into PyDAQmx. *)
Theorem DAQmx_init_establishes channels clock w :
  DAQmx_init channels clock new_object = (Return tt, w) ->
  exists c k,
    (channels = PyStr c \/ channels = PyBytes c) /\
    (clock = PyStr k \/ clock = PyBytes k) /\
    attrs w = <["daq" := PyModule]> (<["task" := PyNone]>
                (<["clock" := PyBytes k]> (<["channels" := PyBytes c]> ∅))) /\
    trace w = [].
Proof.
  unfold DAQmx_init. rewrite bind_lift.
  destruct (string_to_bytes channels "channels") as [c |] eqn:Hc; [| discriminate].
  rewrite bind_setattr, bind_lift.
  destruct (string_to_bytes clock "clock") as [k |] eqn:Hk; [| discriminate].
  rewrite !bind_setattr. unfold setattr. intros [= <-].
  destruct (string_to_bytes_normalises _ _ _ Hc) as (cb & -> & Hcb & _).
  destruct (string_to_bytes_normalises _ _ _ Hk) as (kb & -> & Hkb & _).
  exists cb, kb. repeat split; assumption.
Qed.

Lemma DAQmx_init_establishes_witness :
  exists c k,
    (PyStr "Dev1/ao0:1" = PyStr c \/ PyStr "Dev1/ao0:1" = PyBytes c) /\
    (PyBytes "PFI5" = PyStr k \/ PyBytes "PFI5" = PyBytes k) /\
    attrs (snd (DAQmx_init (PyStr "Dev1/ao0:1") (PyBytes "PFI5") new_object))
    = <["daq" := PyModule]> (<["task" := PyNone]>
        (<["clock" := PyBytes k]> (<["channels" := PyBytes c]> ∅))) /\
    trace (snd (DAQmx_init (PyStr "Dev1/ao0:1") (PyBytes "PFI5") new_object)) = [].
Proof.
  apply (DAQmx_init_establishes (PyStr "Dev1/ao0:1") (PyBytes "PFI5")).
  reflexivity.
Defined.

(** Lines 41 to 44: they go through exactly when both descriptors are
    an ASCII str or bytes; [channels] is looked at first, so its error is
    the one raised whatever [clock] is, and a value that is neither str
    nor bytes is a [ValueError] that names the parameter. *)
Theorem DAQmx_init_accepts channels clock :
  (fst (DAQmx_init channels clock new_object) = Return tt
   <-> is_descriptor channels = true /\ is_descriptor clock = true) /\
  (forall e, string_to_bytes channels "channels" = Raise e ->
             fst (DAQmx_init channels clock new_object) = Raise e) /\
  (forall h, fst (DAQmx_init (PyHandle h) clock new_object)
             = Raise (ValueError "channels must be of either str or bytes type")) /\
  (is_descriptor channels = true ->
   fst (DAQmx_init channels PyNone new_object)
   = Raise (ValueError "clock must be of either str or bytes type")).
Proof.
  unfold DAQmx_init. split; [split | split; [| split]].
  - rewrite bind_lift.
    destruct (string_to_bytes channels "channels") as [c |] eqn:Hc; [| discriminate].
    rewrite bind_setattr, bind_lift.
    destruct (string_to_bytes clock "clock") as [k |] eqn:Hk; [| discriminate].
    intros _. split.
    + apply (string_to_bytes_descriptor channels "channels"). eauto.
    + apply (string_to_bytes_descriptor clock "clock"). eauto.
  - intros [Hc Hk].
    apply (string_to_bytes_descriptor channels "channels") in Hc as [c Hc].
    apply (string_to_bytes_descriptor clock "clock") in Hk as [k Hk].
    now rewrite bind_lift, Hc, bind_setattr, bind_lift, Hk.
  - intros e He. now rewrite bind_lift, He.
  - intros h. reflexivity.
  - intros Hc.
    apply (string_to_bytes_descriptor channels "channels") in Hc as [c Hc].
    now rewrite bind_lift, Hc.
Qed.

(** ** Clearing, closing and stale notifications *)

(** X4: [clear_pending_task] makes at most one call into PyDAQmx, a
    [DAQmxClearTask] on the handle it holds.  With nothing held it does
    nothing at all; an accepted clear empties [task]; a refused one raises
    the hardware error and leaves the handle where it was. *)
Theorem clear_pending_task_one_call daq w r w' :
  wf w ->
  clear_pending_task daq w = (r, w') ->
  (r = Return tt /\ w' = w /\ attrs w !! "task" = Some PyNone) \/
  (exists old,
     attrs w !! "task" = Some old /\ is_none old = false /\
     trace w' = (trace w ++ [{| ev_call := DAQmxClearTask old;
                                ev_error := daq_error daq (trace w) (DAQmxClearTask old) |}])%list /\
     match daq_error daq (trace w) (DAQmxClearTask old) with
     | None => r = Return tt /\ attrs w' = <["task" := PyNone]> (attrs w)
     | Some code => r = Raise (DAQError code) /\ attrs w' = attrs w
     end).
Proof.
  intros (Hd & _ & _ & [task Ht]).
  destruct (is_none task) eqn:Hn.
  - destruct task; try discriminate.
    rewrite (clear_pending_task_idle _ _ Ht). intros [= <- <-]. left. auto.
  - rewrite (clear_pending_task_pending _ _ _ Hd Ht Hn). intros Hclear.
    right. exists task. split; [exact Ht | split; [exact Hn |]].
    destruct (daq_error daq (trace w) (DAQmxClearTask task)) as [code |];
      injection Hclear as <- <-; auto.
Qed.

Lemma clear_pending_task_one_call_witness :
  let daq := board 2 4 refuse_clear in
  let w := driver_with_task 7 in
  let w' := record w {| ev_call := DAQmxClearTask (PyHandle 7); ev_error := Some (-200088) |} in
  (Raise (DAQError (-200088)) = Return tt /\ w' = w /\ attrs w !! "task" = Some PyNone) \/
  (exists old,
     attrs w !! "task" = Some old /\ is_none old = false /\
     trace w' = (trace w ++ [{| ev_call := DAQmxClearTask old;
                                ev_error := daq_error daq (trace w) (DAQmxClearTask old) |}])%list /\
     match daq_error daq (trace w) (DAQmxClearTask old) with
     | None => Raise (DAQError (-200088)) = Return tt /\
               attrs w' = <["task" := PyNone]> (attrs w)
     | Some code => @Raise unit (DAQError (-200088)) = Raise (DAQError code) /\
                    attrs w' = attrs w
     end).
Proof.
  apply (clear_pending_task_one_call (board 2 4 refuse_clear) (driver_with_task 7)).
  - vm_compute. repeat split; eauto.
  - reflexivity.
Defined.

(** Whatever the class of the box and whatever state the driver has
    reached, a [close] that returns leaves [task] empty and no hardware task armed, and closing again
    returns at once without touching the hardware. *)
Theorem close_leaves_nothing_running daq {box : Int32Box} w w' :
  reachable daq w ->
  close daq w = (Return tt, w') ->
  attrs w' !! "task" = Some PyNone /\ none_armed w' /\ close daq w' = (Return tt, w').
Proof.
  intros Hr Hclose. unfold close in *.
  pose proof (reachable_no_device daq w Hr) as [Hwf _].
  pose proof (reachable_at_most_one daq w Hr) as Hone.
  destruct (clear_pending_task_exits daq _ _ _ Hwf Hclose)
    as [(_ & _ & Hnone & _) | (code & old & Habs & _)]; [| discriminate].
  destruct (clear_pending_task_at_most_one daq _ _ _ Hwf Hone Hclose) as [_ Harmed].
  split; [exact Hnone | split; [now apply Harmed | now apply clear_pending_task_idle]].
Qed.

(** X6: no entry point, however it ends, changes an attribute other
    than [task]: the channel and clock descriptors and the module are the
    ones the constructor stored, and no attribute appears or disappears. *)
Theorem entry_points_keep_configuration daq {box : Int32Box} o w name :
  name <> "task" ->
  attrs (run daq o w) !! name = attrs w !! name.
Proof.
  intros Hne.
  apply (keeps_run daq (fun w' => attrs w' !! name = attrs w !! name)).
  - intros w1 e H. exact H.
  - intros w1 v H. unfold store; simpl. now rewrite lookup_insert_ne.
  - reflexivity.
Qed.

Lemma entry_points_keep_configuration_witness :
  attrs (@run (board 3 4 accept_all) ctypes_int32
           (OpLoad 1000%float [1.0; 2.0; 3.0; 4.0]%float) (driver_with_task 7)) !! "channels"
  = attrs (driver_with_task 7) !! "channels".
Proof.
  apply (@entry_points_keep_configuration (board 3 4 accept_all) ctypes_int32).
  discriminate.
Defined.

Lemma done_callback_py_no_task daq taskhandle status callback_data w :
  attrs w !! "task" = Some PyNone ->
  done_callback_py daq taskhandle status callback_data w = (Return tt, w).
Proof.
  intros Ht. unfold done_callback_py.
  rewrite (bind_Return _ _ _ _ _ (getattr_Some _ _ _ Ht)).
  destruct (py_eq taskhandle PyNone); [now apply clear_pending_task_idle | reflexivity].
Qed.

(** X7: while the driver holds no task, a done-notification does
    nothing, whatever identity it carries. *)
Theorem done_callback_py_idle daq taskhandle status callback_data w :
  attrs w !! "task" = Some PyNone ->
  done_callback_py daq taskhandle status callback_data w = (Return tt, w).
Proof. apply done_callback_py_no_task. Qed.

Lemma done_callback_py_idle_witness :
  done_callback_py (board 2 4 accept_all) (PyHandle 3) 0 PyNone fresh_driver
  = (Return tt, fresh_driver).
Proof.
  apply (done_callback_py_idle (board 2 4 accept_all) (PyHandle 3) 0 PyNone fresh_driver).
  reflexivity.
Defined.

(** ** More on [load_sample_values] *)

Lemma fold_pick_In (pick : float -> float -> bool) xs x :
  In (fold_left (fun best item => if pick best item then item else best) xs x) (x :: xs).
Proof.
  revert x. induction xs as [| y ys IH]; intros x; simpl.
  - now left.
  - destruct (IH (if pick x y then y else x)) as [H | H].
    + destruct (pick x y); [right; left | left]; exact H.
    + right. right. exact H.
Qed.

Lemma py_min_In values lo : py_min values = Return lo -> In lo values.
Proof.
  destruct values as [| x xs]; [discriminate |]. intros [= <-].
  apply (fold_pick_In (fun best item => PrimFloat.ltb item best)).
Qed.

Lemma py_max_In values hi : py_max values = Return hi -> In hi values.
Proof.
  destruct values as [| x xs]; [discriminate |]. intros [= <-].
  apply (fold_pick_In (fun best item => PrimFloat.ltb best item)).
Qed.

(** X9: on an idle driver whose hardware creates the task, the first
    thing [load_sample_values] does with a non-empty buffer is to create
    the analog output channel on the new task, for the channels of the
    constructor and with a voltage range whose two ends are samples of the
    buffer, its [min] and its [max]. *)
Theorem load_sample_values_voltage_range daq {box : Int32Box} sampling_freq values w :
  wf w ->
  attrs w !! "task" = Some PyNone ->
  values <> [] ->
  daq_error daq (trace w) Task = None ->
  exists channels lo hi err rest,
    attrs w !! "channels" = Some channels /\
    py_min values = Return lo /\ py_max values = Return hi /\
    In lo values /\ In hi values /\
    trace (snd (load_sample_values daq sampling_freq values w)) =
      (trace w ++ {| ev_call := Task; ev_error := None |}
               :: {| ev_call := CreateAOVoltageChan (daq_taskHandle daq (trace w))
                                  channels lo hi;
                     ev_error := err |}
               :: rest)%list.
Proof.
  intros (Hd & [c Hc] & [k Hk] & _) Ht Hne Hacc.
  destruct values as [| x xs]; [contradiction |].
  unfold load_sample_values.
  rewrite (bind_Return _ _ _ _ _ (clear_pending_task_idle daq _ Ht)).
  exists c. unfold arm_new_task.
  do 3 exec1; [congruence |].
  exec1. exec1; [| discriminate]. exec1; [| discriminate].
  match goal with
  | H1 : py_min _ = Return ?a, H2 : py_max _ = Return ?b |- _ =>
      exists a, b; pose proof (py_min_In _ _ H1); pose proof (py_max_In _ _ H2)
  end.
  repeat exec1.
  all: eexists; eexists; repeat (split; [eassumption || reflexivity |]).
  all: cbn [snd trace record store]; rewrite <- ?app_assoc; cbn [app]; reflexivity.
Qed.

Lemma load_sample_values_voltage_range_witness :
  let daq := board 2 4 accept_all in
  let values := [3.0; 1.0; 4.0; 2.0]%float in
  exists channels lo hi err rest,
    attrs fresh_driver !! "channels" = Some channels /\
    py_min values = Return lo /\ py_max values = Return hi /\
    In lo values /\ In hi values /\
    trace (snd (@load_sample_values daq ctypes_int32 1000%float values fresh_driver)) =
      (trace fresh_driver ++ {| ev_call := Task; ev_error := None |}
               :: {| ev_call := CreateAOVoltageChan (daq_taskHandle daq (trace fresh_driver))
                                  channels lo hi;
                     ev_error := err |}
               :: rest)%list.
Proof.
  apply (@load_sample_values_voltage_range (board 2 4 accept_all) ctypes_int32
           1000%float [3.0; 1.0; 4.0; 2.0]%float fresh_driver).
  - vm_compute. repeat split; eauto.
  - reflexivity.
  - discriminate.
  - reflexivity.
Defined.

(** With the ctypes box, [arm_new_task] always raises before line 118. *)
Lemma arm_new_task_ctypes daq f vs w c k r w' :
  attrs w !! "daq" = Some PyModule ->
  attrs w !! "channels" = Some c ->
  attrs w !! "clock" = Some k ->
  @arm_new_task daq ctypes_int32 f vs w = (r, w') ->
  attrs w' = attrs w /\ exists e, r = Raise e.
Proof.
  intros Hd Hc Hk. unfold arm_new_task.
  repeat (exec1;
          try match goal with
              | H : @int_floordiv_box ctypes_int32 _ _ = Return _ |- _ => discriminate H
              end).
  all: intros [= <- <-]; cbn [attrs trace record store]; eauto.
Qed.

Lemma load_sample_values_ctypes daq f vs w :
  wf w ->
  exists e,
    fst (@load_sample_values daq ctypes_int32 f vs w) = Raise e /\
    (attrs w !! "task" = Some PyNone ->
     attrs (snd (@load_sample_values daq ctypes_int32 f vs w)) !! "task" = Some PyNone).
Proof.
  intros Hwf.
  destruct (@load_sample_values daq ctypes_int32 f vs w) as [r w'] eqn:Hload.
  destruct (load_sample_values_cases _ _ _ _ _ _ Hload)
    as [(e & Hclear & ->) | (w1 & Hclear & Harm)].
  - exists e. split; [reflexivity |]. intros Ht.
    rewrite (clear_pending_task_idle _ _ Ht) in Hclear. discriminate.
  - destruct (clear_pending_task_exits daq _ _ _ Hwf Hclear)
      as [(_ & (Hd & [c Hc] & [k Hk] & _) & Hnone & _) | (code & old & Habs & _)];
      [| discriminate].
    destruct (arm_new_task_ctypes _ _ _ _ _ _ _ _ Hd Hc Hk Harm) as [Hsame [e ->]].
    exists e. split; [reflexivity |]. intros _. simpl. now rewrite Hsame.
Qed.

Lemma run_ctypes_idle daq o w :
  no_device w -> attrs w !! "task" = Some PyNone ->
  attrs (@run daq ctypes_int32 o w) !! "task" = Some PyNone.
Proof.
  intros Hnd Ht. pose proof Hnd as [Hwf _].
  destruct o as [f vs | | | | th status cd]; simpl.
  - destruct (load_sample_values_ctypes daq f vs w Hwf) as (e & _ & Hkeep). now apply Hkeep.
  - now rewrite ping_no_device.
  - unfold close. now rewrite (clear_pending_task_idle _ _ Ht).
  - now rewrite (clear_pending_task_idle _ _ Ht).
  - now rewrite done_callback_py_no_task.
Qed.

(** X11: with PyDAQmx's ctypes [int32], a driver built by [__init__]
    and used through its methods never holds a task, and every call of
    [load_sample_values] on it raises: line 100 is reached with the box,
    not its [.value], whenever the size check passes. *)
Theorem load_sample_values_never_arms daq w :
  @reachable daq ctypes_int32 w ->
  attrs w !! "task" = Some PyNone /\
  forall sampling_freq values,
    exists e, fst (@load_sample_values daq ctypes_int32 sampling_freq values w) = Raise e.
Proof.
  intros Hr.
  assert (Ht : attrs w !! "task" = Some PyNone).
  { induction Hr as [channels clock w Hinit | o w Hr IH].
    - destruct (DAQmx_init_establishes _ _ _ Hinit) as (c & k & _ & _ & -> & _).
      now rewrite lookup_insert_ne, lookup_insert_eq by done.
    - apply run_ctypes_idle; [exact (reachable_no_device daq w Hr) | exact IH]. }
  split; [exact Ht |].
  intros f vs. pose proof (reachable_no_device daq w Hr) as [Hwf _].
  destruct (load_sample_values_ctypes daq f vs w Hwf) as (e & He & _). eauto.
Qed.

Lemma load_sample_values_never_arms_witness :
  let daq := board 2 4 accept_all in
  let w := @run daq ctypes_int32 (OpLoad 1000%float [1.0; 2.0; 3.0; 4.0]%float) fresh_driver in
  attrs w !! "task" = Some PyNone /\
  forall sampling_freq values,
    exists e, fst (@load_sample_values daq ctypes_int32 sampling_freq values w) = Raise e.
Proof.
  apply (load_sample_values_never_arms (board 2 4 accept_all)).
  apply reachable_run.
  apply (@reachable_init (board 2 4 accept_all) ctypes_int32
           (PyStr "Dev1/ao0:1") (PyStr "PFI5")).
  reflexivity.
Defined.

(** In every state the driver can reach, whatever the class of the
    [int32] box, the hardware tasks it has started and not cleared are at
    most one, and that one is the task it holds. *)
Theorem driver_one_task_at_a_time daq {box : Int32Box} w :
  reachable daq w ->
  forall h1 h2,
    armed (trace w) h1 = true -> armed (trace w) h2 = true ->
    h1 = h2 /\ attrs w !! "task" = Some (PyHandle h1).
Proof.
  intros Hr h1 h2 H1 H2.
  pose proof (reachable_at_most_one daq w Hr) as Hone.
  pose proof (Hone h1 H1) as E1. pose proof (Hone h2 H2) as E2.
  split; [congruence | exact E1].
Qed.


(** * The driver as PyDAQmx runs it *)

(** From here on the box is [ctypes_int32], the class PyDAQmx has, and
    the states are those the constructor and the methods produce. *)

Lemma DAQmx_init_idle channels clock w :
  DAQmx_init channels clock new_object = (Return tt, w) ->
  attrs w !! "task" = Some PyNone.
Proof.
  unfold DAQmx_init. rewrite bind_lift.
  destruct (string_to_bytes channels "channels") as [c | e]; [| discriminate].
  rewrite bind_setattr, bind_lift.
  destruct (string_to_bytes clock "clock") as [k | e]; [| discriminate].
  rewrite !bind_setattr. unfold setattr. intros [= <-].
  unfold store; simpl. now rewrite lookup_insert_ne, lookup_insert_eq by done.
Qed.

Lemma reachable_ctypes_idle daq w :
  @reachable daq ctypes_int32 w -> attrs w !! "task" = Some PyNone.
Proof.
  induction 1 as [channels clock w Hinit | o w Hr IH].
  - now apply DAQmx_init_idle with channels clock.
  - apply run_ctypes_idle; [exact (reachable_no_device daq w Hr) | exact IH].
Qed.

Lemma load_sample_values_idle daq {box : Int32Box} f vs w :
  attrs w !! "task" = Some PyNone ->
  load_sample_values daq f vs w = arm_new_task daq f vs w.
Proof.
  intros Ht. unfold load_sample_values.
  now rewrite (bind_Return _ _ _ _ _ (clear_pending_task_idle daq _ Ht)).
Qed.

(** ** Error exits *)



(** ** The completion callback *)





(** ** Buffers of the right size *)

Section Divisible.

Context (daq : PyDAQmx) (k : Z).
Hypothesis accepts : forall tr c, daq_error daq tr c = None.
Hypothesis channels : forall tr t, daq_numChans daq tr t = k.
Hypothesis k_pos : 1 <= k.

Local Ltac prune :=
  try match goal with
      | H : daq_error daq _ _ = Some _ |- _ => rewrite accepts in H; discriminate H
      | H : py_min (_ :: _) = Raise _ |- _ => discriminate H
      | H : py_max (_ :: _) = Raise _ |- _ => discriminate H
      | H : @int_floordiv_box ctypes_int32 _ _ = Return _ |- _ => discriminate H
      | H : py_mod _ (daq_numChans daq _ _) = _ |- _ =>
          rewrite channels in H; unfold py_mod in H;
          destruct (Z.eqb_spec k 0); [lia |];
          first [discriminate H | injection H as <-]
      end.

(** The size check passes, line 100 raises. *)
Lemma arm_new_task_divisible f values w c clk :
  attrs w !! "daq" = Some PyModule ->
  attrs w !! "channels" = Some c ->
  attrs w !! "clock" = Some clk ->
  values <> [] ->
  Z.of_nat (length values) mod k = 0 ->
  fst (@arm_new_task daq ctypes_int32 f values w) = Raise TypeError.
Proof.
  intros Hd Hc Hk Hne Hmod. destruct values as [| x xs]; [contradiction |].
  unfold arm_new_task.
  repeat (exec1; prune); cbn [fst].
  - exfalso. cbn [length] in *. rewrite Hmod in Heqb. discriminate.
  - match goal with
    | H : @int_floordiv_box ctypes_int32 _ _ = Raise _ |- _ => now injection H as <-
    end.
Qed.

Lemma load_sample_values_divisible f values w :
  wf w ->
  values <> [] ->
  Z.of_nat (length values) mod k = 0 ->
  fst (@load_sample_values daq ctypes_int32 f values w) = Raise TypeError.
Proof.
  intros Hwf Hne Hmod.
  destruct (clear_pending_task_accepted daq w Hwf accepts) as (w1 & Hclear & Hwf1 & _).
  pose proof Hwf1 as (Hd & [c Hc] & [clk Hclk] & _).
  unfold load_sample_values. rewrite (bind_Return _ _ _ _ _ Hclear).
  now apply arm_new_task_divisible with c clk.
Qed.

End Divisible.

(** C1: on hardware that accepts every call and resolves [k >= 1]
    channels, a non-empty buffer whose length is not a multiple of [k] is
    refused with [InvalidBufferSize], but one whose length is a multiple
    of [k] does not succeed either: the size check passes and line 100
    raises [TypeError].  In both cases [task] is empty afterwards. *)
Theorem load_sample_values_divisible_raises daq k sampling_freq values w :
  @reachable daq ctypes_int32 w ->
  (forall tr c, daq_error daq tr c = None) ->
  (forall tr t, daq_numChans daq tr t = k) ->
  1 <= k ->
  values <> [] ->
  let n := Z.of_nat (length values) in
  let out := @load_sample_values daq ctypes_int32 sampling_freq values w in
  (n mod k <> 0 -> fst out = Raise (InvalidBufferSize k)) /\
  (n mod k = 0 -> fst out = Raise TypeError) /\
  attrs (snd out) !! "task" = Some PyNone.
Proof.
  intros Hr Hacc Hchan Hk Hne n out.
  pose proof (reachable_no_device daq w Hr) as [Hwf _].
  split; [| split].
  - intros Hmod.
    apply (@load_sample_values_size_check daq ctypes_int32 k sampling_freq values w
             Hwf Hacc Hchan Hk); [intros a b msg; discriminate | exact Hne | exact Hmod].
  - intros Hmod. now apply load_sample_values_divisible with k.
  - apply (reachable_ctypes_idle daq).
    exact (@reachable_run daq ctypes_int32 (OpLoad sampling_freq values) w Hr).
Qed.

Lemma load_sample_values_divisible_raises_witness :
  let daq := board 1 1 accept_all in
  let values := [1.0]%float in
  let n := Z.of_nat (length values) in
  let out := @load_sample_values daq ctypes_int32 1000%float values fresh_driver in
  (n mod 1 <> 0 -> fst out = Raise (InvalidBufferSize 1)) /\
  (n mod 1 = 0 -> fst out = Raise TypeError) /\
  attrs (snd out) !! "task" = Some PyNone.
Proof.
  apply (load_sample_values_divisible_raises (board 1 1 accept_all) 1 1000%float
           [1.0]%float fresh_driver).
  - apply (@reachable_init (board 1 1 accept_all) ctypes_int32
             (PyStr "Dev1/ao0:1") (PyStr "PFI5")).
    reflexivity.
  - reflexivity.
  - reflexivity.
  - lia.
  - discriminate.
Defined.

(** C2: on hardware that accepts every call and resolves [k >= 1]
    channels, two successive calls with non-empty buffers of the right
    size both raise [TypeError] at line 100, and after them no task is
    held and none is armed: not one active task, none. *)
Theorem load_sample_values_twice_raises daq k f1 vs1 f2 vs2 w :
  @reachable daq ctypes_int32 w ->
  (forall tr c, daq_error daq tr c = None) ->
  (forall tr t, daq_numChans daq tr t = k) ->
  1 <= k ->
  vs1 <> [] -> Z.of_nat (length vs1) mod k = 0 ->
  vs2 <> [] -> Z.of_nat (length vs2) mod k = 0 ->
  let out1 := @load_sample_values daq ctypes_int32 f1 vs1 w in
  let out2 := @load_sample_values daq ctypes_int32 f2 vs2 (snd out1) in
  fst out1 = Raise TypeError /\
  fst out2 = Raise TypeError /\
  attrs (snd out2) !! "task" = Some PyNone /\
  none_armed (snd out2).
Proof.
  intros Hr Hacc Hchan Hk Hne1 Hmod1 Hne2 Hmod2 out1 out2.
  assert (Hr1 : @reachable daq ctypes_int32 (snd out1))
    by exact (@reachable_run daq ctypes_int32 (OpLoad f1 vs1) w Hr).
  assert (Hr2 : @reachable daq ctypes_int32 (snd out2))
    by exact (@reachable_run daq ctypes_int32 (OpLoad f2 vs2) (snd out1) Hr1).
  pose proof (reachable_no_device daq w Hr) as [Hwf _].
  pose proof (reachable_no_device daq _ Hr1) as [Hwf1 _].
  pose proof (reachable_ctypes_idle daq _ Hr2) as Ht2.
  split; [now apply load_sample_values_divisible with k |].
  split; [now apply load_sample_values_divisible with k |].
  split; [exact Ht2 |].
  apply at_most_one_idle; [| exact Ht2].
  exact (reachable_at_most_one daq _ Hr2).
Qed.

Lemma load_sample_values_twice_raises_witness :
  let daq := board 2 4 accept_all in
  let out1 := @load_sample_values daq ctypes_int32 1000%float
                [1.0; 2.0; 3.0; 4.0]%float fresh_driver in
  let out2 := @load_sample_values daq ctypes_int32 2000%float
                [5.0; 6.0; 7.0; 8.0]%float (snd out1) in
  fst out1 = Raise TypeError /\
  fst out2 = Raise TypeError /\
  attrs (snd out2) !! "task" = Some PyNone /\
  none_armed (snd out2).
Proof.
  apply (load_sample_values_twice_raises (board 2 4 accept_all) 2
           1000%float [1.0; 2.0; 3.0; 4.0]%float 2000%float [5.0; 6.0; 7.0; 8.0]%float
           fresh_driver).
  - apply (@reachable_init (board 2 4 accept_all) ctypes_int32
             (PyStr "Dev1/ao0:1") (PyStr "PFI5")).
    reflexivity.
  - reflexivity.
  - reflexivity.
  - lia.
  - discriminate.
  - reflexivity.
  - discriminate.
  - reflexivity.
Defined.

(** ** The constructor with its import *)

(** X3: the constructor returns exactly when PyDAQmx can be imported and
    both descriptors are an ASCII str or bytes.  A failed import is raised
    whatever the arguments are; after it [channels] is looked at first, so
    its error is raised whatever [clock] is, and a value that is neither
    str nor bytes is a [ValueError] that names the parameter. *)
Theorem DAQmx_construct_accepts import_error channels clock :
  (fst (DAQmx_construct import_error channels clock new_object) = Return tt
   <-> import_error = None /\
       is_descriptor channels = true /\ is_descriptor clock = true) /\
  (forall e, fst (DAQmx_construct (Some e) channels clock new_object) = Raise e) /\
  (forall e, string_to_bytes channels "channels" = Raise e ->
             fst (DAQmx_construct None channels clock new_object) = Raise e) /\
  (forall h, fst (DAQmx_construct None (PyHandle h) clock new_object)
             = Raise (ValueError "channels must be of either str or bytes type")) /\
  (is_descriptor channels = true ->
   fst (DAQmx_construct None channels PyNone new_object)
   = Raise (ValueError "clock must be of either str or bytes type")).
Proof.
  assert (Hnone : forall c k,
            DAQmx_construct None c k new_object = DAQmx_init c k new_object)
    by reflexivity.
  destruct (DAQmx_init_accepts channels clock) as (Hiff & Hchan & Hhandle & Hclock).
  split; [| split; [| split; [| split]]].
  - destruct import_error as [e |].
    + split; [discriminate | intros [Habs _]; discriminate].
    + rewrite Hnone, Hiff. tauto.
  - reflexivity.
  - intros e He. rewrite Hnone. now apply Hchan.
  - intros h. rewrite Hnone. apply Hhandle.
  - intros Hc. rewrite Hnone. now apply Hclock.
Qed.

(** ** [close] and empty buffers *)

(** X5: in every state of the driver [close] returns without a call into
    the hardware and without an error, the first time and every time
    after: no task is ever held, so there is nothing for it to clear. *)
Theorem close_on_hardware daq w :
  @reachable daq ctypes_int32 w ->
  close daq w = (Return tt, w) /\ attrs w !! "task" = Some PyNone.
Proof.
  intros Hr. pose proof (reachable_ctypes_idle daq w Hr) as Ht.
  split; [now apply clear_pending_task_idle | exact Ht].
Qed.

Lemma close_on_hardware_witness :
  let daq := board 2 4 refuse_clear in
  let w := @run daq ctypes_int32 OpClose
             (@run daq ctypes_int32 (OpLoad 1000%float [1.0; 2.0; 3.0; 4.0]%float)
                fresh_driver) in
  close daq w = (Return tt, w) /\ attrs w !! "task" = Some PyNone.
Proof.
  apply (close_on_hardware (board 2 4 refuse_clear)).
  do 2 apply reachable_run.
  apply (@reachable_init (board 2 4 refuse_clear) ctypes_int32
           (PyStr "Dev1/ao0:1") (PyStr "PFI5")).
  reflexivity.
Defined.

(** X10: on an idle driver whose hardware creates the task, an empty
    buffer is refused by [min] with a [ValueError] that is not the size
    error: the size check, which an empty buffer would pass, is not
    reached.  No attribute changes. *)
Theorem load_sample_values_empty_raises daq {box : Int32Box} sampling_freq w :
  wf w ->
  attrs w !! "task" = Some PyNone ->
  daq_error daq (trace w) Task = None ->
  exists msg,
    fst (load_sample_values daq sampling_freq [] w) = Raise (ValueError msg) /\
    (forall k, ValueError msg <> InvalidBufferSize k) /\
    attrs (snd (load_sample_values daq sampling_freq [] w)) = attrs w.
Proof.
  intros (Hd & [c Hc] & _) Ht Hacc.
  rewrite (load_sample_values_idle daq _ _ _ Ht).
  exists "min() arg is an empty sequence".
  assert (Harm : arm_new_task daq sampling_freq [] w =
                 (Raise (ValueError "min() arg is an empty sequence"),
                  record w {| ev_call := Task; ev_error := None |})).
  { unfold arm_new_task.
    do 3 exec1; [congruence |].
    exec1. rewrite bind_lift. reflexivity. }
  rewrite Harm. split; [reflexivity | split; [| reflexivity]].
  intros k. unfold InvalidBufferSize. simpl. discriminate.
Qed.

Lemma load_sample_values_empty_raises_witness :
  exists msg,
    fst (@load_sample_values (board 2 4 accept_all) ctypes_int32 1000%float [] fresh_driver)
    = Raise (ValueError msg) /\
    (forall k, ValueError msg <> InvalidBufferSize k) /\
    attrs (snd (@load_sample_values (board 2 4 accept_all) ctypes_int32 1000%float []
                  fresh_driver))
    = attrs fresh_driver.
Proof.
  apply (@load_sample_values_empty_raises (board 2 4 accept_all) ctypes_int32
           1000%float fresh_driver).
  - vm_compute. repeat split; eauto.
  - reflexivity.
  - reflexivity.
Defined.

(** ** What never reaches the board *)

Lemma arm_new_task_ctypes_quiet daq f vs w c k :
  attrs w !! "daq" = Some PyModule ->
  attrs w !! "channels" = Some c ->
  attrs w !! "clock" = Some k ->
  Forall (fun ev => is_output_call (ev_call ev) = false) (trace w) ->
  Forall (fun ev => is_output_call (ev_call ev) = false)
         (trace (snd (@arm_new_task daq ctypes_int32 f vs w))).
Proof.
  intros Hd Hc Hk Hq. unfold arm_new_task.
  repeat (exec1;
          try match goal with
              | H : @int_floordiv_box ctypes_int32 _ _ = Return _ |- _ => discriminate H
              end).
  all: cbn [snd trace record store].
  all: repeat (apply Forall_app; split); try assumption.
  all: repeat constructor.
Qed.

Lemma run_ctypes_quiet daq o w :
  no_device w -> attrs w !! "task" = Some PyNone ->
  Forall (fun ev => is_output_call (ev_call ev) = false) (trace w) ->
  Forall (fun ev => is_output_call (ev_call ev) = false)
         (trace (@run daq ctypes_int32 o w)).
Proof.
  intros Hnd Ht Hq. pose proof Hnd as [(Hd & [c Hc] & [k Hk] & _) _].
  destruct o as [f vs | | | | th status cd]; simpl.
  - rewrite (load_sample_values_idle daq _ _ _ Ht).
    now apply arm_new_task_ctypes_quiet with c k.
  - now rewrite ping_no_device.
  - unfold close. now rewrite (clear_pending_task_idle _ _ Ht).
  - now rewrite (clear_pending_task_idle _ _ Ht).
  - now rewrite done_callback_py_no_task.
Qed.

(** X12: whatever is asked of the driver, the history of its calls into
    PyDAQmx never contains a sample clock configuration, a write of
    samples, a registration of the callback or a start: every output
    stops before line 102, and no task is ever armed. *)
Theorem driver_never_outputs daq w :
  @reachable daq ctypes_int32 w ->
  Forall (fun ev => is_output_call (ev_call ev) = false) (trace w) /\
  none_armed w.
Proof.
  intros Hr. split.
  - induction Hr as [channels clock w Hinit | o w Hr IH].
    + rewrite (DAQmx_init_trace _ _ _ Hinit). constructor.
    + apply run_ctypes_quiet;
        [exact (reachable_no_device daq w Hr) | exact (reachable_ctypes_idle daq w Hr) | exact IH].
  - apply at_most_one_idle;
      [exact (reachable_at_most_one daq w Hr) | exact (reachable_ctypes_idle daq w Hr)].
Qed.

Lemma driver_never_outputs_witness :
  let daq := board 2 4 accept_all in
  let w := @run daq ctypes_int32 (OpLoad 2000%float [5.0; 6.0]%float)
             (@run daq ctypes_int32 (OpLoad 1000%float [1.0; 2.0; 3.0; 4.0]%float)
                fresh_driver) in
  Forall (fun ev => is_output_call (ev_call ev) = false) (trace w) /\
  none_armed w.
Proof.
  apply (driver_never_outputs (board 2 4 accept_all)).
  do 2 apply reachable_run.
  apply (@reachable_init (board 2 4 accept_all) ctypes_int32
           (PyStr "Dev1/ao0:1") (PyStr "PFI5")).
  reflexivity.
Defined.
